(** * Ride management canister: rides, ride reviews and average ratings

    The repository holds two versions of the same canister:
    - [Plain]  (the version without validation): no payload is checked, the
      average rating is recomputed from the review store on every read, each
      field-scoped update is written out on its own, and the searches and
      filters are separate functions;
    - [Cached] (src/index.ts): payloads are validated, every ride carries an
      [averageRating] that [updateRideAverageRating] is meant to maintain, the
      field-scoped updates call [updateRide] with a one-key object, and
      [filterRides] combines the search criteria.

    Modelling choices.
    - A [StableBTreeMap<string, V>] is a [gmap string V]; [get], [insert],
      [remove] and [values] are the four primitives the code uses.  [values]
      enumerates in the order of the keys, which are compared as strings,
      code unit by code unit.
    - The canister state is the pair of the two maps; an exported function
      is a computation in a state monad over it, so that "does not mutate" is
      a statement about the final state.
    - A function that can throw is a computation whose outcome is a returned
      value or a thrown exception, with the stores as they are at that point.
      An [Opt] value is the plain object [{ Some: v }] or [{ None: null }]: it
      has no methods, so the calls [record.averageRating.isSome()] and
      [.unwrap()] of src/index.ts throw a [TypeError].
    - [uuidv4()] and [ic.time()] are calls to the host: their results are
      arguments ([uuid], [time]) of the operations that make them.
    - A JavaScript [number] is an IEEE 754 binary64 value: a primitive [float],
      with its NaN, its infinities and its rounding.
    - [String.prototype.toLowerCase] is a function of the JavaScript engine;
      it is a parameter of the definitions that call it.
    - Errors are the strings the code returns. *)

From Stdlib Require Import ZArith Floats Ascii String.
From Stdlib Require Uint63.
From stdpp Require Import gmap strings list fin_maps sorting.

Local Open Scope string_scope.

(** ** Host types *)

Abbreviation number := float (only parsing).
Abbreviation nat64 := N (only parsing).

Inductive Result (A : Type) : Type :=
| Ok (value : A)
| Err (message : string).
Arguments Ok {A} value.
Arguments Err {A} message.

(** The four error strings of the code, under the names of the error kinds. *)
Definition InvalidPayload : string := "Invalid input payload".
Definition NoReviews : string := "No reviews found for the ride".
Definition RideNotFound : string := "Ride not found".
Definition NotFound (id : string) : string :=
  "Ride with id=" ++ id ++ " not found".

(** ** JavaScript primitives used by the code *)

(** [!s] is true exactly when [s] is the empty string. *)
Definition falsy_string (s : string) : bool :=
  match s with EmptyString => true | String _ _ => false end.

(** [!n] is true exactly when [n] is a zero ([0] or [-0]) or NaN. *)
Definition falsy_number (n : number) : bool :=
  PrimFloat.eqb n 0%float || negb (PrimFloat.eqb n n).

(** [x < y] and [x <= y] on numbers; both are false when one side is NaN. *)
Definition number_ltb (x y : number) : bool := PrimFloat.ltb x y.
Definition number_leb (x y : number) : bool := PrimFloat.leb x y.

(** The length of an array, as a number. *)
Definition number_of_nat (n : nat) : number :=
  PrimFloat.of_uint63 (Uint63.of_Z (Z.of_nat n)).

(** The engine: [s.toLowerCase()]. *)
Class Host : Type := { toLowerCase : string → string }.

(** What [toLowerCase] does on a string of ASCII characters; the examples run
    on this host. *)
Definition lower_ascii (c : ascii) : ascii :=
  let n := nat_of_ascii c in
  if (65 <=? n)%nat && (n <=? 90)%nat then ascii_of_nat (n + 32) else c.

Fixpoint ascii_toLowerCase (s : string) : string :=
  match s with
  | EmptyString => EmptyString
  | String c s' => String (lower_ascii c) (ascii_toLowerCase s')
  end.

Definition ascii_host : Host := {| toLowerCase := ascii_toLowerCase |}.

(** [a < b] and [a <= b] on strings: lexicographic on the code units. *)
Definition string_ltb (a b : string) : bool := String.ltb a b.
Definition string_leb (a b : string) : bool := String.leb a b.

(** [reviews.reduce((sum, review) => sum + review.rating, 0)] and the like. *)
Definition reduce {A B : Type} (f : B -> A -> B) (init : B) (l : list A) : B :=
  fold_left f l init.

(** ** The state monad of the canister *)

Definition M (S A : Type) : Type := S -> A * S.

Definition ret {S A : Type} (a : A) : M S A := fun s => (a, s).

Definition bind {S A B : Type} (c : M S A) (k : A -> M S B) : M S B :=
  fun s => match c s with (a, s') => k a s' end.

Notation "'let*' x ':=' c 'in' k" := (bind c (fun x => k))
  (at level 10, x name, c at level 100, k at level 200,
   format "'[v' 'let*'  x  ':='  c  'in' '/' k ']'").

(** ** Computations that can throw *)

(** The [TypeError] of a call to a property that is not a function; it carries
    the name of the property (its message is the engine's). *)
Inductive Exception : Type :=
| TypeError (property : string).

Inductive Outcome (A : Type) : Type :=
| Returned (value : A)
| Threw (exception : Exception).
Arguments Returned {A} value.
Arguments Threw {A} exception.

(** The outcome and the state at the return or at the throw. *)
Definition MX (S A : Type) : Type := M S (Outcome A).

Definition retX {S A : Type} (a : A) : MX S A := ret (Returned a).

Definition throw {S A : Type} (exception : Exception) : MX S A :=
  ret (Threw exception).

(** What follows a throw is not run. *)
Definition bindX {S A B : Type} (c : MX S A) (k : A -> MX S B) : MX S B :=
  fun s =>
    match c s with
    | (Returned a, s') => k a s'
    | (Threw exception, s') => (Threw exception, s')
    end.

(** A computation that cannot throw, among those that can. *)
Definition lift {S A : Type} (c : M S A) : MX S A :=
  let* a := c in ret (Returned a).

Notation "'let!' x ':=' c 'in' k" := (bindX c (fun x => k))
  (at level 10, x name, c at level 100, k at level 200,
   format "'[v' 'let!'  x  ':='  c  'in' '/' k ']'").

(** [opt.isSome()] and [opt.unwrap()]: [opt] is a plain object, the property
    is [undefined] and the call throws, whatever [opt] is. *)
Definition isSome {S A : Type} (opt : option A) : MX S bool :=
  throw (TypeError "isSome").

Definition unwrap {S A : Type} (opt : option A) : MX S A :=
  throw (TypeError "unwrap").

(** The order of the entries of a [StableBTreeMap]: the order of their keys. *)
Definition key_le {V : Type} (a b : string * V) : Prop :=
  string_leb a.1 b.1 = true.

#[global] Instance key_le_dec {V : Type} (a b : string * V) : Decision (key_le a b).
Proof. unfold key_le. apply _. Defined.

(** [StableBTreeMap.values()]: the values, in the order of their keys. *)
Definition values {V : Type} (m : gmap string V) : list V :=
  (merge_sort key_le (map_to_list m)).*2.

(** ** Records shared by the two versions *)

Module RidePayload.
Record t : Type := Build {
  providerId : string;
  date : string;
  startTime : string;
  endTime : string;
  startLocation : string;
  endLocation : string;
  availableSeats : number;
  description : string;
}.
End RidePayload.

Module RideReviewRecord.
Record t : Type := Build {
  id : string;
  rideId : string;
  userId : string;
  rating : number;
  comment : string;
  createdAt : nat64;
}.
End RideReviewRecord.

Module RideReviewPayload.
Record t : Type := Build {
  rideId : string;
  userId : string;
  rating : number;
  comment : string;
}.
End RideReviewPayload.

(** [{ id: uuidv4(), createdAt: ic.time(), ...payload }] *)
Definition review_of_payload (uuid : string) (time : nat64)
    (payload : RideReviewPayload.t) : RideReviewRecord.t :=
  {| RideReviewRecord.id := uuid;
     RideReviewRecord.createdAt := time;
     RideReviewRecord.rideId := RideReviewPayload.rideId payload;
     RideReviewRecord.userId := RideReviewPayload.userId payload;
     RideReviewRecord.rating := RideReviewPayload.rating payload;
     RideReviewRecord.comment := RideReviewPayload.comment payload |}.

(** [review => review.rideId === rideId] *)
Definition review_of_ride (rideId : string) (review : RideReviewRecord.t) : bool :=
  String.eqb (RideReviewRecord.rideId review) rideId.

(** ** Vocabulary of the statements *)

(** A computation is read-only when it hands back the state it was given. *)
Definition read_only {S A : Type} (c : M S A) : Prop := ∀ s, snd (c s) = s.

(** No stored review has this [rideId]. *)
Definition no_review (rideId : string) (reviews : gmap string RideReviewRecord.t)
    : Prop :=
  ∀ k review, reviews !! k = Some review → RideReviewRecord.rideId review ≠ rideId.

(** A review payload with its three strings non-empty and its rating in [1,5]. *)
Definition valid_review_payload (payload : RideReviewPayload.t) : Prop :=
  RideReviewPayload.rideId payload ≠ ""
  ∧ RideReviewPayload.userId payload ≠ ""
  ∧ RideReviewPayload.comment payload ≠ ""
  ∧ number_leb 1%float (RideReviewPayload.rating payload) = true
  ∧ number_leb (RideReviewPayload.rating payload) 5%float = true.

(** A review payload with an empty string, or a rating below 1 or above 5. *)
Definition out_of_bounds_review_payload (payload : RideReviewPayload.t) : Prop :=
  RideReviewPayload.rideId payload = ""
  ∨ RideReviewPayload.userId payload = ""
  ∨ RideReviewPayload.comment payload = ""
  ∨ number_ltb (RideReviewPayload.rating payload) 1%float = true
  ∨ number_ltb 5%float (RideReviewPayload.rating payload) = true.

(** A number that is a zero or NaN. *)
Definition zero_or_nan (n : number) : Prop :=
  PrimFloat.eqb n 0%float = true ∨ PrimFloat.eqb n n = false.

(** A ride payload with an empty string field, or with seats zero or NaN. *)
Definition missing_field (payload : RidePayload.t) : Prop :=
  RidePayload.providerId payload = ""
  ∨ RidePayload.date payload = ""
  ∨ RidePayload.startTime payload = ""
  ∨ RidePayload.endTime payload = ""
  ∨ RidePayload.startLocation payload = ""
  ∨ RidePayload.endLocation payload = ""
  ∨ zero_or_nan (RidePayload.availableSeats payload)
  ∨ RidePayload.description payload = "".

(** The six field-scoped updates, as requests. *)
Inductive FieldUpdate : Type :=
| SetStartLocation (newStartLocation : string)
| SetEndLocation (newEndLocation : string)
| SetDate (newDate : string)
| SetStartTime (newStartTime : string)
| SetEndTime (newEndTime : string)
| SetAvailableSeats (newAvailableSeats : number).

(** The payload that has the new value for the targeted field and the values
    of [payload] for the other fields. *)
Definition payload_with (u : FieldUpdate) (payload : RidePayload.t) : RidePayload.t :=
  let '(RidePayload.Build providerId date startTime endTime startLocation
                          endLocation availableSeats description) := payload in
  match u with
  | SetStartLocation v =>
      RidePayload.Build providerId date startTime endTime v endLocation
                        availableSeats description
  | SetEndLocation v =>
      RidePayload.Build providerId date startTime endTime startLocation v
                        availableSeats description
  | SetDate v =>
      RidePayload.Build providerId v startTime endTime startLocation endLocation
                        availableSeats description
  | SetStartTime v =>
      RidePayload.Build providerId date v endTime startLocation endLocation
                        availableSeats description
  | SetEndTime v =>
      RidePayload.Build providerId date startTime v startLocation endLocation
                        availableSeats description
  | SetAvailableSeats v =>
      RidePayload.Build providerId date startTime endTime startLocation
                        endLocation v description
  end.

(** The field a field-scoped update targets. *)
Definition target (u : FieldUpdate) : nat :=
  match u with
  | SetStartLocation _ => 0
  | SetEndLocation _ => 1
  | SetDate _ => 2
  | SetStartTime _ => 3
  | SetEndTime _ => 4
  | SetAvailableSeats _ => 5
  end.

(** * The version that recomputes the average on every read *)

Module Plain.

Module RideRecord.
Record t : Type := Build {
  id : string;
  providerId : string;
  date : string;
  startTime : string;
  endTime : string;
  startLocation : string;
  endLocation : string;
  availableSeats : number;
  description : string;
  createdAt : nat64;
  updatedAt : option nat64;
}.
End RideRecord.

Record State : Type := mkState {
  rideStorage : gmap string RideRecord.t;
  rideReviewStorage : gmap string RideReviewRecord.t;
}.

(** *** Store primitives *)

Definition rideStorage_get (k : string) : M State (option RideRecord.t) :=
  fun st => (rideStorage st !! k, st).

Definition rideStorage_insert (k : string) (v : RideRecord.t)
    : M State (option RideRecord.t) :=
  fun st => (rideStorage st !! k,
             mkState (<[k := v]> (rideStorage st)) (rideReviewStorage st)).

Definition rideStorage_remove (k : string) : M State (option RideRecord.t) :=
  fun st => (rideStorage st !! k,
             mkState (delete k (rideStorage st)) (rideReviewStorage st)).

Definition rideStorage_values : M State (list RideRecord.t) :=
  fun st => (values (rideStorage st), st).

Definition rideReviewStorage_insert (k : string) (v : RideReviewRecord.t)
    : M State (option RideReviewRecord.t) :=
  fun st => (rideReviewStorage st !! k,
             mkState (rideStorage st) (<[k := v]> (rideReviewStorage st))).

Definition rideReviewStorage_values : M State (list RideReviewRecord.t) :=
  fun st => (values (rideReviewStorage st), st).

(** *** Reviews *)

Definition addRideReview (uuid : string) (time : nat64)
    (payload : RideReviewPayload.t) : M State (Result RideReviewRecord.t) :=
  let review := review_of_payload uuid time payload in
  let* _ := rideReviewStorage_insert (RideReviewRecord.id review) review in
  ret (Ok review).

Definition getRideReviews (rideId : string)
    : M State (Result (list RideReviewRecord.t)) :=
  let* all := rideReviewStorage_values in
  let reviews := List.filter (review_of_ride rideId) all in
  ret (Ok reviews).

Definition getRideAverageRating (rideId : string) : M State (Result number) :=
  let* all := rideReviewStorage_values in
  let reviews := List.filter (review_of_ride rideId) all in
  if Nat.eqb (length reviews) 0 then ret (Err NoReviews)
  else
    let totalRating :=
      reduce (fun sum review => PrimFloat.add sum (RideReviewRecord.rating review))
             0%float reviews in
    let averageRating :=
      PrimFloat.div totalRating (number_of_nat (length reviews)) in
    ret (Ok averageRating).

(** *** Rides *)

(** [{ id: uuidv4(), createdAt: ic.time(), updatedAt: Opt.None, ...payload }] *)
Definition record_of_payload (uuid : string) (time : nat64)
    (payload : RidePayload.t) : RideRecord.t :=
  {| RideRecord.id := uuid;
     RideRecord.createdAt := time;
     RideRecord.updatedAt := None;
     RideRecord.providerId := RidePayload.providerId payload;
     RideRecord.date := RidePayload.date payload;
     RideRecord.startTime := RidePayload.startTime payload;
     RideRecord.endTime := RidePayload.endTime payload;
     RideRecord.startLocation := RidePayload.startLocation payload;
     RideRecord.endLocation := RidePayload.endLocation payload;
     RideRecord.availableSeats := RidePayload.availableSeats payload;
     RideRecord.description := RidePayload.description payload |}.

Definition addRide (uuid : string) (time : nat64) (payload : RidePayload.t)
    : M State (Result RideRecord.t) :=
  let record := record_of_payload uuid time payload in
  let* _ := rideStorage_insert (RideRecord.id record) record in
  ret (Ok record).

(** [{ ...record, ...payload, updatedAt: Opt.Some(ic.time()) }] *)
Definition merge_payload (record : RideRecord.t) (payload : RidePayload.t)
    (time : nat64) : RideRecord.t :=
  {| RideRecord.id := RideRecord.id record;
     RideRecord.createdAt := RideRecord.createdAt record;
     RideRecord.providerId := RidePayload.providerId payload;
     RideRecord.date := RidePayload.date payload;
     RideRecord.startTime := RidePayload.startTime payload;
     RideRecord.endTime := RidePayload.endTime payload;
     RideRecord.startLocation := RidePayload.startLocation payload;
     RideRecord.endLocation := RidePayload.endLocation payload;
     RideRecord.availableSeats := RidePayload.availableSeats payload;
     RideRecord.description := RidePayload.description payload;
     RideRecord.updatedAt := Some time |}.

Definition updateRide (id : string) (time : nat64) (payload : RidePayload.t)
    : M State (Result RideRecord.t) :=
  let* found := rideStorage_get id in
  match found with
  | Some record =>
      let updatedRecord := merge_payload record payload time in
      let* _ := rideStorage_insert (RideRecord.id record) updatedRecord in
      ret (Ok updatedRecord)
  | None => ret (Err (NotFound id))
  end.

Definition deleteRide (id : string) : M State (Result RideRecord.t) :=
  let* removed := rideStorage_remove id in
  match removed with
  | Some deletedRecord => ret (Ok deletedRecord)
  | None => ret (Err (NotFound id))
  end.

Definition getRide (id : string) : M State (Result RideRecord.t) :=
  let* found := rideStorage_get id in
  match found with
  | Some record => ret (Ok record)
  | None => ret (Err (NotFound id))
  end.

Definition getAllRides : M State (Result (list RideRecord.t)) :=
  let* all := rideStorage_values in
  ret (Ok all).

(** *** Searches and filters *)

Section Searches.
Context {host : Host}.

Definition searchRidesByStartLocation (location : string)
    : M State (Result (list RideRecord.t)) :=
  let* records := rideStorage_values in
  let filteredRides :=
    List.filter
      (fun ride => String.eqb (toLowerCase (RideRecord.startLocation ride))
                              (toLowerCase location))
      records in
  ret (Ok filteredRides).

Definition filterRidesByDateRange (startDate endDate : string)
    : M State (Result (list RideRecord.t)) :=
  let* records := rideStorage_values in
  let filteredRides :=
    List.filter
      (fun ride => string_leb startDate (RideRecord.date ride)
                   && string_leb (RideRecord.date ride) endDate)
      records in
  ret (Ok filteredRides).

Definition getRidesByProvider (providerId : string)
    : M State (Result (list RideRecord.t)) :=
  let* all := rideStorage_values in
  let rides :=
    List.filter (fun ride => String.eqb (RideRecord.providerId ride) providerId)
                all in
  ret (Ok rides).

Definition searchRidesByEndLocation (location : string)
    : M State (Result (list RideRecord.t)) :=
  let* records := rideStorage_values in
  let filteredRides :=
    List.filter
      (fun ride => String.eqb (toLowerCase (RideRecord.endLocation ride))
                              (toLowerCase location))
      records in
  ret (Ok filteredRides).

Definition filterRidesByAvailableSeats (minSeats : number)
    : M State (Result (list RideRecord.t)) :=
  let* records := rideStorage_values in
  let filteredRides :=
    List.filter
      (fun ride => number_leb minSeats (RideRecord.availableSeats ride))
      records in
  ret (Ok filteredRides).

End Searches.

(** *** Field-scoped updates

    Each one builds [{ ...record, field: value, updatedAt: Opt.Some(ic.time()) }]
    and stores it under [record.id]. *)

Definition with_availableSeats (record : RideRecord.t) (v : number)
    (time : nat64) : RideRecord.t :=
  {| RideRecord.id := RideRecord.id record;
     RideRecord.providerId := RideRecord.providerId record;
     RideRecord.date := RideRecord.date record;
     RideRecord.startTime := RideRecord.startTime record;
     RideRecord.endTime := RideRecord.endTime record;
     RideRecord.startLocation := RideRecord.startLocation record;
     RideRecord.endLocation := RideRecord.endLocation record;
     RideRecord.availableSeats := v;
     RideRecord.description := RideRecord.description record;
     RideRecord.createdAt := RideRecord.createdAt record;
     RideRecord.updatedAt := Some time |}.

Definition with_startLocation (record : RideRecord.t) (v : string)
    (time : nat64) : RideRecord.t :=
  {| RideRecord.id := RideRecord.id record;
     RideRecord.providerId := RideRecord.providerId record;
     RideRecord.date := RideRecord.date record;
     RideRecord.startTime := RideRecord.startTime record;
     RideRecord.endTime := RideRecord.endTime record;
     RideRecord.startLocation := v;
     RideRecord.endLocation := RideRecord.endLocation record;
     RideRecord.availableSeats := RideRecord.availableSeats record;
     RideRecord.description := RideRecord.description record;
     RideRecord.createdAt := RideRecord.createdAt record;
     RideRecord.updatedAt := Some time |}.

Definition with_endLocation (record : RideRecord.t) (v : string)
    (time : nat64) : RideRecord.t :=
  {| RideRecord.id := RideRecord.id record;
     RideRecord.providerId := RideRecord.providerId record;
     RideRecord.date := RideRecord.date record;
     RideRecord.startTime := RideRecord.startTime record;
     RideRecord.endTime := RideRecord.endTime record;
     RideRecord.startLocation := RideRecord.startLocation record;
     RideRecord.endLocation := v;
     RideRecord.availableSeats := RideRecord.availableSeats record;
     RideRecord.description := RideRecord.description record;
     RideRecord.createdAt := RideRecord.createdAt record;
     RideRecord.updatedAt := Some time |}.

Definition with_date (record : RideRecord.t) (v : string)
    (time : nat64) : RideRecord.t :=
  {| RideRecord.id := RideRecord.id record;
     RideRecord.providerId := RideRecord.providerId record;
     RideRecord.date := v;
     RideRecord.startTime := RideRecord.startTime record;
     RideRecord.endTime := RideRecord.endTime record;
     RideRecord.startLocation := RideRecord.startLocation record;
     RideRecord.endLocation := RideRecord.endLocation record;
     RideRecord.availableSeats := RideRecord.availableSeats record;
     RideRecord.description := RideRecord.description record;
     RideRecord.createdAt := RideRecord.createdAt record;
     RideRecord.updatedAt := Some time |}.

Definition with_startTime (record : RideRecord.t) (v : string)
    (time : nat64) : RideRecord.t :=
  {| RideRecord.id := RideRecord.id record;
     RideRecord.providerId := RideRecord.providerId record;
     RideRecord.date := RideRecord.date record;
     RideRecord.startTime := v;
     RideRecord.endTime := RideRecord.endTime record;
     RideRecord.startLocation := RideRecord.startLocation record;
     RideRecord.endLocation := RideRecord.endLocation record;
     RideRecord.availableSeats := RideRecord.availableSeats record;
     RideRecord.description := RideRecord.description record;
     RideRecord.createdAt := RideRecord.createdAt record;
     RideRecord.updatedAt := Some time |}.

Definition with_endTime (record : RideRecord.t) (v : string)
    (time : nat64) : RideRecord.t :=
  {| RideRecord.id := RideRecord.id record;
     RideRecord.providerId := RideRecord.providerId record;
     RideRecord.date := RideRecord.date record;
     RideRecord.startTime := RideRecord.startTime record;
     RideRecord.endTime := v;
     RideRecord.startLocation := RideRecord.startLocation record;
     RideRecord.endLocation := RideRecord.endLocation record;
     RideRecord.availableSeats := RideRecord.availableSeats record;
     RideRecord.description := RideRecord.description record;
     RideRecord.createdAt := RideRecord.createdAt record;
     RideRecord.updatedAt := Some time |}.

(** The body the six field-scoped updates share, [update] being the object
    literal of each. *)
Definition update_field {V : Type}
    (update : RideRecord.t -> V -> nat64 -> RideRecord.t)
    (id : string) (time : nat64) (v : V) : M State (Result RideRecord.t) :=
  let* found := rideStorage_get id in
  match found with
  | Some record =>
      let updatedRecord := update record v time in
      let* _ := rideStorage_insert (RideRecord.id record) updatedRecord in
      ret (Ok updatedRecord)
  | None => ret (Err (NotFound id))
  end.

Definition updateRideAvailableSeats (id : string) (time : nat64)
    (newAvailableSeats : number) : M State (Result RideRecord.t) :=
  update_field with_availableSeats id time newAvailableSeats.

Definition updateRideStartLocation (id : string) (time : nat64)
    (newStartLocation : string) : M State (Result RideRecord.t) :=
  update_field with_startLocation id time newStartLocation.

Definition updateRideEndLocation (id : string) (time : nat64)
    (newEndLocation : string) : M State (Result RideRecord.t) :=
  update_field with_endLocation id time newEndLocation.

Definition updateRideDate (id : string) (time : nat64)
    (newDate : string) : M State (Result RideRecord.t) :=
  update_field with_date id time newDate.

Definition updateRideStartTime (id : string) (time : nat64)
    (newStartTime : string) : M State (Result RideRecord.t) :=
  update_field with_startTime id time newStartTime.

Definition updateRideEndTime (id : string) (time : nat64)
    (newEndTime : string) : M State (Result RideRecord.t) :=
  update_field with_endTime id time newEndTime.

(** *** Vocabulary of the statements about this version *)

Definition init : State := mkState ∅ ∅.

(** Every ride is stored under its own [id]. *)
Definition keyed (st : State) : Prop :=
  ∀ k record, rideStorage st !! k = Some record → RideRecord.id record = k.

(** The payload that carries the values of a record. *)
Definition payload_of_record (record : RideRecord.t) : RidePayload.t :=
  {| RidePayload.providerId := RideRecord.providerId record;
     RidePayload.date := RideRecord.date record;
     RidePayload.startTime := RideRecord.startTime record;
     RidePayload.endTime := RideRecord.endTime record;
     RidePayload.startLocation := RideRecord.startLocation record;
     RidePayload.endLocation := RideRecord.endLocation record;
     RidePayload.availableSeats := RideRecord.availableSeats record;
     RidePayload.description := RideRecord.description record |}.

(** The field-scoped update a request stands for. *)
Definition updateRideField (u : FieldUpdate) (id : string) (time : nat64)
    : M State (Result RideRecord.t) :=
  match u with
  | SetStartLocation v => updateRideStartLocation id time v
  | SetEndLocation v => updateRideEndLocation id time v
  | SetDate v => updateRideDate id time v
  | SetStartTime v => updateRideStartTime id time v
  | SetEndTime v => updateRideEndTime id time v
  | SetAvailableSeats v => updateRideAvailableSeats id time v
  end.

(** A sequence of [addRideReview] calls, each with the identifier and the
    time the host gave it. *)
Fixpoint addRideReviews (calls : list (string * nat64 * RideReviewPayload.t))
    : M State unit :=
  match calls with
  | [] => ret tt
  | (uuid, time, payload) :: rest =>
      let* _ := addRideReview uuid time payload in
      addRideReviews rest
  end.

(** One mutating call of the canister; identifiers of new reviews are fresh. *)
Inductive step (st : State) : State → Prop :=
| step_addRide uuid time payload :
    step st (addRide uuid time payload st).2
| step_updateRide id time payload :
    step st (updateRide id time payload st).2
| step_updateRideField u id time :
    step st (updateRideField u id time st).2
| step_deleteRide id :
    step st (deleteRide id st).2
| step_addRideReview uuid time payload :
    rideReviewStorage st !! uuid = None →
    step st (addRideReview uuid time payload st).2.

Definition reachable (st : State) : Prop := rtc step init st.

(** Every review is stored under its own [id]. *)
Definition reviews_keyed (st : State) : Prop :=
  ∀ k review,
    rideReviewStorage st !! k = Some review → RideReviewRecord.id review = k.

End Plain.

(** * The version that validates payloads and carries an average (src/index.ts) *)

Module Cached.

Module RideRecord.
Record t : Type := Build {
  id : string;
  providerId : string;
  date : string;
  startTime : string;
  endTime : string;
  startLocation : string;
  endLocation : string;
  availableSeats : number;
  description : string;
  createdAt : nat64;
  updatedAt : option nat64;
  averageRating : option number;
}.
End RideRecord.

(** The object [updateRide] receives as [payload].  The exported method is
    called with a whole [RidePayload]; the field-scoped updates call it with
    an object literal that has one key.  [None] is an absent key. *)
Module RidePatch.
Record t : Type := Build {
  providerId : option string;
  date : option string;
  startTime : option string;
  endTime : option string;
  startLocation : option string;
  endLocation : option string;
  availableSeats : option number;
  description : option string;
}.

(** A whole payload: every key is present. *)
Definition of_payload (payload : RidePayload.t) : t :=
  {| providerId := Some (RidePayload.providerId payload);
     date := Some (RidePayload.date payload);
     startTime := Some (RidePayload.startTime payload);
     endTime := Some (RidePayload.endTime payload);
     startLocation := Some (RidePayload.startLocation payload);
     endLocation := Some (RidePayload.endLocation payload);
     availableSeats := Some (RidePayload.availableSeats payload);
     description := Some (RidePayload.description payload) |}.
End RidePatch.

(** The argument of [filterRides]: every key is optional. *)
Module FilterCriteria.
Record t : Type := Build {
  startLocation : option string;
  endLocation : option string;
  startDate : option string;
  endDate : option string;
  minAvailableSeats : option number;
}.
End FilterCriteria.

Record State : Type := mkState {
  rideStorage : gmap string RideRecord.t;
  rideReviewStorage : gmap string RideReviewRecord.t;
}.

(** *** Store primitives *)

Definition rideStorage_get (k : string) : M State (option RideRecord.t) :=
  fun st => (rideStorage st !! k, st).

Definition rideStorage_insert (k : string) (v : RideRecord.t)
    : M State (option RideRecord.t) :=
  fun st => (rideStorage st !! k,
             mkState (<[k := v]> (rideStorage st)) (rideReviewStorage st)).

Definition rideStorage_remove (k : string) : M State (option RideRecord.t) :=
  fun st => (rideStorage st !! k,
             mkState (delete k (rideStorage st)) (rideReviewStorage st)).

Definition rideStorage_values : M State (list RideRecord.t) :=
  fun st => (values (rideStorage st), st).

Definition rideReviewStorage_insert (k : string) (v : RideReviewRecord.t)
    : M State (option RideReviewRecord.t) :=
  fun st => (rideReviewStorage st !! k,
             mkState (rideStorage st) (<[k := v]> (rideReviewStorage st))).

Definition rideReviewStorage_values : M State (list RideReviewRecord.t) :=
  fun st => (values (rideReviewStorage st), st).

(** *** Reviews and the average carried by the ride *)

(** [{ ...record, averageRating: Opt.Some(averageRating) }] *)
Definition with_averageRating (record : RideRecord.t) (averageRating : number)
    : RideRecord.t :=
  {| RideRecord.id := RideRecord.id record;
     RideRecord.providerId := RideRecord.providerId record;
     RideRecord.date := RideRecord.date record;
     RideRecord.startTime := RideRecord.startTime record;
     RideRecord.endTime := RideRecord.endTime record;
     RideRecord.startLocation := RideRecord.startLocation record;
     RideRecord.endLocation := RideRecord.endLocation record;
     RideRecord.availableSeats := RideRecord.availableSeats record;
     RideRecord.description := RideRecord.description record;
     RideRecord.createdAt := RideRecord.createdAt record;
     RideRecord.updatedAt := RideRecord.updatedAt record;
     RideRecord.averageRating := Some averageRating |}.

Definition updateRideAverageRating (rideId : string) (newRating : number)
    : MX State unit :=
  let! found := lift (rideStorage_get rideId) in
  match found with
  | Some record =>
      let! averageRating :=
        let! hasAverage := isSome (RideRecord.averageRating record) in
        if hasAverage then
          let! prevAvgRating := unwrap (RideRecord.averageRating record) in
          let! all := lift rideReviewStorage_values in
          let prevTotalRatings :=
            number_of_nat (length (List.filter (review_of_ride rideId) all)) in
          let totalRatings := PrimFloat.add prevTotalRatings 1%float in
          retX (PrimFloat.div
                  (PrimFloat.add (PrimFloat.mul prevAvgRating prevTotalRatings)
                                 newRating)
                  totalRatings)
        else retX newRating in
      let updatedRecord := with_averageRating record averageRating in
      let! _ := lift (rideStorage_insert (RideRecord.id record) updatedRecord) in
      retX tt
  | None => retX tt
  end.

(** [!payload.rideId || !payload.userId || payload.rating < 1 ||
     payload.rating > 5 || !payload.comment] *)
Definition invalid_review_payload (payload : RideReviewPayload.t) : bool :=
  falsy_string (RideReviewPayload.rideId payload)
  || falsy_string (RideReviewPayload.userId payload)
  || number_ltb (RideReviewPayload.rating payload) 1%float
  || number_ltb 5%float (RideReviewPayload.rating payload)
  || falsy_string (RideReviewPayload.comment payload).

Definition addRideReview (uuid : string) (time : nat64)
    (payload : RideReviewPayload.t) : MX State (Result RideReviewRecord.t) :=
  if invalid_review_payload payload then retX (Err InvalidPayload)
  else
    let review := review_of_payload uuid time payload in
    let! _ := lift (rideReviewStorage_insert (RideReviewRecord.id review) review) in
    let! _ := updateRideAverageRating (RideReviewPayload.rideId payload)
                                      (RideReviewRecord.rating review) in
    retX (Ok review).

Definition getRideReviews (rideId : string)
    : M State (Result (list RideReviewRecord.t)) :=
  let* all := rideReviewStorage_values in
  let reviews := List.filter (review_of_ride rideId) all in
  ret (Ok reviews).

Definition getRideAverageRating (rideId : string) : MX State (Result number) :=
  let! found := lift (rideStorage_get rideId) in
  match found with
  | Some record =>
      let! hasAverage := isSome (RideRecord.averageRating record) in
      if hasAverage then
        let! averageRating := unwrap (RideRecord.averageRating record) in
        retX (Ok averageRating)
      else retX (Err NoReviews)
  | None => retX (Err RideNotFound)
  end.

(** *** Rides *)

(** [!payload.providerId || !payload.date || ... || !payload.description] *)
Definition invalid_ride_payload (payload : RidePayload.t) : bool :=
  falsy_string (RidePayload.providerId payload)
  || falsy_string (RidePayload.date payload)
  || falsy_string (RidePayload.startTime payload)
  || falsy_string (RidePayload.endTime payload)
  || falsy_string (RidePayload.startLocation payload)
  || falsy_string (RidePayload.endLocation payload)
  || falsy_number (RidePayload.availableSeats payload)
  || falsy_string (RidePayload.description payload).

(** [{ id: uuidv4(), createdAt: ic.time(), updatedAt: Opt.None,
       averageRating: Opt.None, ...payload }] *)
Definition record_of_payload (uuid : string) (time : nat64)
    (payload : RidePayload.t) : RideRecord.t :=
  {| RideRecord.id := uuid;
     RideRecord.createdAt := time;
     RideRecord.updatedAt := None;
     RideRecord.averageRating := None;
     RideRecord.providerId := RidePayload.providerId payload;
     RideRecord.date := RidePayload.date payload;
     RideRecord.startTime := RidePayload.startTime payload;
     RideRecord.endTime := RidePayload.endTime payload;
     RideRecord.startLocation := RidePayload.startLocation payload;
     RideRecord.endLocation := RidePayload.endLocation payload;
     RideRecord.availableSeats := RidePayload.availableSeats payload;
     RideRecord.description := RidePayload.description payload |}.

Definition addRide (uuid : string) (time : nat64) (payload : RidePayload.t)
    : M State (Result RideRecord.t) :=
  if invalid_ride_payload payload then ret (Err InvalidPayload)
  else
    let record := record_of_payload uuid time payload in
    let* _ := rideStorage_insert (RideRecord.id record) record in
    ret (Ok record).

(** [{ ...record, ...payload, updatedAt: Opt.Some(ic.time()) }]: a key of
    [payload] replaces the record's, an absent key leaves it. *)
Definition merge_patch (record : RideRecord.t) (payload : RidePatch.t)
    (time : nat64) : RideRecord.t :=
  {| RideRecord.id := RideRecord.id record;
     RideRecord.createdAt := RideRecord.createdAt record;
     RideRecord.averageRating := RideRecord.averageRating record;
     RideRecord.providerId :=
       default (RideRecord.providerId record) (RidePatch.providerId payload);
     RideRecord.date :=
       default (RideRecord.date record) (RidePatch.date payload);
     RideRecord.startTime :=
       default (RideRecord.startTime record) (RidePatch.startTime payload);
     RideRecord.endTime :=
       default (RideRecord.endTime record) (RidePatch.endTime payload);
     RideRecord.startLocation :=
       default (RideRecord.startLocation record) (RidePatch.startLocation payload);
     RideRecord.endLocation :=
       default (RideRecord.endLocation record) (RidePatch.endLocation payload);
     RideRecord.availableSeats :=
       default (RideRecord.availableSeats record) (RidePatch.availableSeats payload);
     RideRecord.description :=
       default (RideRecord.description record) (RidePatch.description payload);
     RideRecord.updatedAt := Some time |}.

Definition updateRide (id : string) (time : nat64) (payload : RidePatch.t)
    : M State (Result RideRecord.t) :=
  let* found := rideStorage_get id in
  match found with
  | Some record =>
      let updatedRecord := merge_patch record payload time in
      let* _ := rideStorage_insert (RideRecord.id record) updatedRecord in
      ret (Ok updatedRecord)
  | None => ret (Err (NotFound id))
  end.

Definition deleteRide (id : string) : M State (Result RideRecord.t) :=
  let* removed := rideStorage_remove id in
  match removed with
  | Some deletedRecord => ret (Ok deletedRecord)
  | None => ret (Err (NotFound id))
  end.

Definition getRide (id : string) : M State (Result RideRecord.t) :=
  let* found := rideStorage_get id in
  match found with
  | Some record => ret (Ok record)
  | None => ret (Err (NotFound id))
  end.

Definition getAllRides : M State (Result (list RideRecord.t)) :=
  let* all := rideStorage_values in
  ret (Ok all).

(** *** The combined filter *)

Section Filter.
Context {host : Host}.

(** [criteria.key && ...]: the key is present and not the empty string. *)
Definition truthy_string (s : option string) : bool :=
  match s with Some s => negb (falsy_string s) | None => false end.

Definition truthy_number (n : option number) : bool :=
  match n with Some n => negb (falsy_number n) | None => false end.

Definition filterRides_match (filterCriteria : FilterCriteria.t)
    (ride : RideRecord.t) : bool :=
  let match0 := true in
  let match1 :=
    if truthy_string (FilterCriteria.startLocation filterCriteria)
       && negb (String.eqb
                  (toLowerCase (RideRecord.startLocation ride))
                  (toLowerCase (default "" (FilterCriteria.startLocation filterCriteria))))
    then false else match0 in
  let match2 :=
    if truthy_string (FilterCriteria.endLocation filterCriteria)
       && negb (String.eqb
                  (toLowerCase (RideRecord.endLocation ride))
                  (toLowerCase (default "" (FilterCriteria.endLocation filterCriteria))))
    then false else match1 in
  let match3 :=
    if truthy_string (FilterCriteria.startDate filterCriteria)
       && truthy_string (FilterCriteria.endDate filterCriteria)
       && (string_ltb (RideRecord.date ride)
                      (default "" (FilterCriteria.startDate filterCriteria))
           || string_ltb (default "" (FilterCriteria.endDate filterCriteria))
                         (RideRecord.date ride))
    then false else match2 in
  let match4 :=
    if truthy_number (FilterCriteria.minAvailableSeats filterCriteria)
       && number_ltb (RideRecord.availableSeats ride)
                     (default 0%float (FilterCriteria.minAvailableSeats filterCriteria))
    then false else match3 in
  match4.

Definition filterRides (filterCriteria : FilterCriteria.t)
    : M State (Result (list RideRecord.t)) :=
  let* records := rideStorage_values in
  let filteredRides := List.filter (filterRides_match filterCriteria) records in
  ret (Ok filteredRides).

End Filter.

Definition getRidesByProvider (providerId : string)
    : M State (Result (list RideRecord.t)) :=
  let* all := rideStorage_values in
  let rides :=
    List.filter (fun ride => String.eqb (RideRecord.providerId ride) providerId)
                all in
  ret (Ok rides).

(** *** Field-scoped updates: [updateRide(id, { field: value })] *)

Definition updateRideAvailableSeats (id : string) (time : nat64)
    (newAvailableSeats : number) : M State (Result RideRecord.t) :=
  updateRide id time
    {| RidePatch.providerId := None; RidePatch.date := None;
       RidePatch.startTime := None; RidePatch.endTime := None;
       RidePatch.startLocation := None; RidePatch.endLocation := None;
       RidePatch.availableSeats := Some newAvailableSeats;
       RidePatch.description := None |}.

Definition updateRideStartLocation (id : string) (time : nat64)
    (newStartLocation : string) : M State (Result RideRecord.t) :=
  updateRide id time
    {| RidePatch.providerId := None; RidePatch.date := None;
       RidePatch.startTime := None; RidePatch.endTime := None;
       RidePatch.startLocation := Some newStartLocation;
       RidePatch.endLocation := None;
       RidePatch.availableSeats := None;
       RidePatch.description := None |}.

Definition updateRideEndLocation (id : string) (time : nat64)
    (newEndLocation : string) : M State (Result RideRecord.t) :=
  updateRide id time
    {| RidePatch.providerId := None; RidePatch.date := None;
       RidePatch.startTime := None; RidePatch.endTime := None;
       RidePatch.startLocation := None;
       RidePatch.endLocation := Some newEndLocation;
       RidePatch.availableSeats := None;
       RidePatch.description := None |}.

Definition updateRideDate (id : string) (time : nat64)
    (newDate : string) : M State (Result RideRecord.t) :=
  updateRide id time
    {| RidePatch.providerId := None; RidePatch.date := Some newDate;
       RidePatch.startTime := None; RidePatch.endTime := None;
       RidePatch.startLocation := None; RidePatch.endLocation := None;
       RidePatch.availableSeats := None;
       RidePatch.description := None |}.

Definition updateRideStartTime (id : string) (time : nat64)
    (newStartTime : string) : M State (Result RideRecord.t) :=
  updateRide id time
    {| RidePatch.providerId := None; RidePatch.date := None;
       RidePatch.startTime := Some newStartTime; RidePatch.endTime := None;
       RidePatch.startLocation := None; RidePatch.endLocation := None;
       RidePatch.availableSeats := None;
       RidePatch.description := None |}.

Definition updateRideEndTime (id : string) (time : nat64)
    (newEndTime : string) : M State (Result RideRecord.t) :=
  updateRide id time
    {| RidePatch.providerId := None; RidePatch.date := None;
       RidePatch.startTime := None; RidePatch.endTime := Some newEndTime;
       RidePatch.startLocation := None; RidePatch.endLocation := None;
       RidePatch.availableSeats := None;
       RidePatch.description := None |}.

(** *** Vocabulary of the statements about this version *)

Definition init : State := mkState ∅ ∅.

(** Every ride is stored under its own [id]. *)
Definition keyed (st : State) : Prop :=
  ∀ k record, rideStorage st !! k = Some record → RideRecord.id record = k.

(** No ride has an [averageRating]. *)
Definition unrated (st : State) : Prop :=
  ∀ k record,
    rideStorage st !! k = Some record → RideRecord.averageRating record = None.

Definition inv (st : State) : Prop := keyed st ∧ unrated st.

(** The payload that carries the values of a record. *)
Definition payload_of_record (record : RideRecord.t) : RidePayload.t :=
  {| RidePayload.providerId := RideRecord.providerId record;
     RidePayload.date := RideRecord.date record;
     RidePayload.startTime := RideRecord.startTime record;
     RidePayload.endTime := RideRecord.endTime record;
     RidePayload.startLocation := RideRecord.startLocation record;
     RidePayload.endLocation := RideRecord.endLocation record;
     RidePayload.availableSeats := RideRecord.availableSeats record;
     RidePayload.description := RideRecord.description record |}.

(** The field-scoped update a request stands for. *)
Definition updateRideField (u : FieldUpdate) (id : string) (time : nat64)
    : M State (Result RideRecord.t) :=
  match u with
  | SetStartLocation v => updateRideStartLocation id time v
  | SetEndLocation v => updateRideEndLocation id time v
  | SetDate v => updateRideDate id time v
  | SetStartTime v => updateRideStartTime id time v
  | SetEndTime v => updateRideEndTime id time v
  | SetAvailableSeats v => updateRideAvailableSeats id time v
  end.

(** One mutating call of the canister; identifiers of new reviews are fresh.
    A call that throws leaves the stores as they are at the throw; if the
    host discards what such a call has written, the call leaves the state it
    started from, which is reachable as well. *)
Inductive step (st : State) : State → Prop :=
| step_addRide uuid time payload :
    step st (addRide uuid time payload st).2
| step_updateRide id time payload :
    step st (updateRide id time (RidePatch.of_payload payload) st).2
| step_updateRideField u id time :
    step st (updateRideField u id time st).2
| step_deleteRide id :
    step st (deleteRide id st).2
| step_addRideReview uuid time payload :
    rideReviewStorage st !! uuid = None →
    step st (addRideReview uuid time payload st).2.

Definition reachable (st : State) : Prop := rtc step init st.

(** Every review is stored under its own [id]. *)
Definition reviews_keyed (st : State) : Prop :=
  ∀ k review,
    rideReviewStorage st !! k = Some review → RideReviewRecord.id review = k.

(** Every stored review passed the validation of [addRideReview]: its strings
    are not empty and its rating is neither below 1 nor above 5. *)
Definition reviews_accepted (st : State) : Prop :=
  ∀ k review,
    rideReviewStorage st !! k = Some review →
    RideReviewRecord.rideId review ≠ ""
    ∧ RideReviewRecord.userId review ≠ ""
    ∧ RideReviewRecord.comment review ≠ ""
    ∧ number_ltb (RideReviewRecord.rating review) 1%float = false
    ∧ number_ltb 5%float (RideReviewRecord.rating review) = false.

(** A criteria object none of whose keys takes part in [filterRides]: the
    locations are absent or empty, the date range lacks a non-empty bound,
    the minimum of seats is absent, zero or NaN. *)
Definition inactive (filterCriteria : FilterCriteria.t) : Prop :=
  truthy_string (FilterCriteria.startLocation filterCriteria) = false
  ∧ truthy_string (FilterCriteria.endLocation filterCriteria) = false
  ∧ (truthy_string (FilterCriteria.startDate filterCriteria) = false
     ∨ truthy_string (FilterCriteria.endDate filterCriteria) = false)
  ∧ truthy_number (FilterCriteria.minAvailableSeats filterCriteria) = false.

(** The record of the version that recomputes: [averageRating] dropped. *)
Definition erase (record : RideRecord.t) : Plain.RideRecord.t :=
  {| Plain.RideRecord.id := RideRecord.id record;
     Plain.RideRecord.providerId := RideRecord.providerId record;
     Plain.RideRecord.date := RideRecord.date record;
     Plain.RideRecord.startTime := RideRecord.startTime record;
     Plain.RideRecord.endTime := RideRecord.endTime record;
     Plain.RideRecord.startLocation := RideRecord.startLocation record;
     Plain.RideRecord.endLocation := RideRecord.endLocation record;
     Plain.RideRecord.availableSeats := RideRecord.availableSeats record;
     Plain.RideRecord.description := RideRecord.description record;
     Plain.RideRecord.createdAt := RideRecord.createdAt record;
     Plain.RideRecord.updatedAt := RideRecord.updatedAt record |}.

Definition erase_state (st : State) : Plain.State :=
  Plain.mkState (erase <$> rideStorage st) (rideReviewStorage st).

Definition erase_result (result : Result RideRecord.t) : Result Plain.RideRecord.t :=
  match result with
  | Ok record => Ok (erase record)
  | Err message => Err message
  end.

End Cached.

(** * Concrete payloads and states *)

Definition commute : RidePayload.t :=
  {| RidePayload.providerId := "p1";
     RidePayload.date := "2024-01-10";
     RidePayload.startTime := "08:00";
     RidePayload.endTime := "09:00";
     RidePayload.startLocation := "A";
     RidePayload.endLocation := "B";
     RidePayload.availableSeats := 3%float;
     RidePayload.description := "commute" |}.

(** [commute] with an empty provider. *)
Definition commute_without_provider : RidePayload.t :=
  {| RidePayload.providerId := "";
     RidePayload.date := "2024-01-10";
     RidePayload.startTime := "08:00";
     RidePayload.endTime := "09:00";
     RidePayload.startLocation := "A";
     RidePayload.endLocation := "B";
     RidePayload.availableSeats := 3%float;
     RidePayload.description := "commute" |}.

(** [commute] with NaN for the seats. *)
Definition commute_with_nan_seats : RidePayload.t :=
  {| RidePayload.providerId := "p1";
     RidePayload.date := "2024-01-10";
     RidePayload.startTime := "08:00";
     RidePayload.endTime := "09:00";
     RidePayload.startLocation := "A";
     RidePayload.endLocation := "B";
     RidePayload.availableSeats := PrimFloat.nan;
     RidePayload.description := "commute" |}.

Definition review_rated (rating : number) : RideReviewPayload.t :=
  {| RideReviewPayload.rideId := "ride-1";
     RideReviewPayload.userId := "u1";
     RideReviewPayload.rating := rating;
     RideReviewPayload.comment := "fine" |}.

(** Three submissions for ["ride-1"], rated 5, 3, 4, and the same ratings in
    another order. *)
Definition calls_5_3_4 : list (string * nat64 * RideReviewPayload.t) :=
  [ ("review-a", 2%N, review_rated 5%float);
    ("review-b", 3%N, review_rated 3%float);
    ("review-c", 4%N, review_rated 4%float) ].

Definition calls_3_5_4 : list (string * nat64 * RideReviewPayload.t) :=
  [ ("review-a", 2%N, review_rated 3%float);
    ("review-b", 3%N, review_rated 5%float);
    ("review-c", 4%N, review_rated 4%float) ].

(** The submissions of [calls_5_3_4], arriving in another order. *)
Definition calls_4_5_3 : list (string * nat64 * RideReviewPayload.t) :=
  [ ("review-c", 4%N, review_rated 4%float);
    ("review-a", 2%N, review_rated 5%float);
    ("review-b", 3%N, review_rated 3%float) ].

(** Three submissions rated 2^53, 1 and 1, and the same ratings with the
    identifiers given the other way round. *)
Definition calls_large_first : list (string * nat64 * RideReviewPayload.t) :=
  [ ("review-a", 2%N, review_rated 9007199254740992%float);
    ("review-b", 3%N, review_rated 1%float);
    ("review-c", 4%N, review_rated 1%float) ].

Definition calls_large_last : list (string * nat64 * RideReviewPayload.t) :=
  [ ("review-a", 2%N, review_rated 1%float);
    ("review-b", 3%N, review_rated 1%float);
    ("review-c", 4%N, review_rated 9007199254740992%float) ].

(** The state after [addRide(commute)] on the empty stores, the host having
    generated the identifier ["ride-1"] at time 1. *)
Definition plain_one_ride : Plain.State :=
  (Plain.addRide "ride-1" 1%N commute Plain.init).2.

Definition cached_one_ride : Cached.State :=
  (Cached.addRide "ride-1" 1%N commute Cached.init).2.

(** The same after a second [addRide(commute)], with identifier ["ride-2"]. *)
Definition plain_two_rides : Plain.State :=
  (Plain.addRide "ride-2" 9%N commute plain_one_ride).2.

Definition cached_two_rides : Cached.State :=
  (Cached.addRide "ride-2" 9%N commute cached_one_ride).2.

(** One ride and one review of it, rated 5.  In the validating version the
    review is submitted first, while no ride has its [rideId], and the ride is
    added after it. *)
Definition plain_reviewed_ride : Plain.State :=
  (Plain.addRideReview "review-a" 2%N (review_rated 5%float) plain_one_ride).2.

Definition cached_only_review : Cached.State :=
  (Cached.addRideReview "review-a" 0%N (review_rated 5%float) Cached.init).2.

Definition cached_reviewed_ride : Cached.State :=
  (Cached.addRide "ride-1" 1%N commute cached_only_review).2.

(** * Facts about the primitives *)

Section Monad.
Context {S : Type}.

Lemma read_only_ret {A : Type} (a : A) : read_only (ret (S := S) a).
Proof. intros s. reflexivity. Qed.

Lemma read_only_bind {A B : Type} (c : M S A) (k : A → M S B) :
  read_only c → (∀ a, read_only (k a)) → read_only (bind c k).
Proof.
  intros Hc Hk s. unfold bind. specialize (Hc s).
  destruct (c s) as [a s']. simpl in Hc. subst s'. apply Hk.
Qed.

Lemma read_only_run {A : Type} (c : M S A) (s : S) :
  read_only c → c s = (fst (c s), s).
Proof. intros Hc. specialize (Hc s). destruct (c s); simpl in *. by subst. Qed.

Lemma read_only_retX {A : Type} (a : A) : read_only (retX (S := S) a).
Proof. intros s. reflexivity. Qed.

Lemma read_only_throw {A : Type} (exception : Exception) :
  read_only (throw (S := S) (A := A) exception).
Proof. intros s. reflexivity. Qed.

Lemma read_only_lift {A : Type} (c : M S A) : read_only c → read_only (lift c).
Proof.
  intros Hc. unfold lift. apply read_only_bind; [done |].
  intros a. apply read_only_ret.
Qed.

Lemma read_only_bindX {A B : Type} (c : MX S A) (k : A → MX S B) :
  read_only c → (∀ a, read_only (k a)) → read_only (bindX c k).
Proof.
  intros Hc Hk s. unfold bindX. specialize (Hc s).
  destruct (c s) as [[a | exception] s']; simpl in Hc; subst s'; [apply Hk | done].
Qed.
End Monad.

Section Values.
Context {V : Type}.
Implicit Types (m : gmap string V) (v : V) (k : string).

Lemma values_Permutation m : values m ≡ₚ (map_to_list m).*2.
Proof. unfold values. by rewrite merge_sort_Permutation. Qed.

Lemma key_le_total : Total (key_le (V := V)).
Proof. intros a b. apply String.leb_total. Qed.

(** [values] lists the values of the entries of the map, in the order of
    their keys. *)
Lemma values_key_order m :
  ∃ entries,
    entries ≡ₚ map_to_list m ∧ Sorted key_le entries ∧ values m = entries.*2.
Proof.
  exists (merge_sort key_le (map_to_list m)).
  split; [apply merge_sort_Permutation |]. split; [| done].
  apply Sorted_merge_sort, key_le_total.
Qed.

Lemma values_In m v : In v (values m) ↔ ∃ k, m !! k = Some v.
Proof.
  rewrite <- list_elem_of_In, values_Permutation, list_elem_of_fmap. split.
  - intros [[k v'] [-> Hin]]. exists k. by apply elem_of_map_to_list in Hin.
  - intros [k Hk]. exists (k, v). split; [done |]. by apply elem_of_map_to_list.
Qed.

Lemma values_empty : values (∅ : gmap string V) = [].
Proof. unfold values. by rewrite map_to_list_empty. Qed.

Lemma values_insert_fresh m k v :
  m !! k = None → values (<[k := v]> m) ≡ₚ v :: values m.
Proof.
  intros Hk. by rewrite !values_Permutation, (map_to_list_insert m k v Hk).
Qed.

Lemma filter_values_In (f : V → bool) m v :
  In v (List.filter f (values m)) ↔ (∃ k, m !! k = Some v) ∧ f v = true.
Proof. by rewrite filter_In, values_In. Qed.

Lemma filter_values_nil (f : V → bool) m :
  (∀ k v, m !! k = Some v → f v = false) → List.filter f (values m) = [].
Proof.
  intros Hf. destruct (List.filter f (values m)) as [| v l] eqn:E; [done |].
  assert (Hin : In v (List.filter f (values m))) by (rewrite E; by left).
  apply filter_values_In in Hin as [[k Hk] Hv].
  rewrite (Hf k v Hk) in Hv. discriminate.
Qed.
End Values.

Lemma review_of_ride_true rideId review :
  review_of_ride rideId review = true ↔ RideReviewRecord.rideId review = rideId.
Proof. unfold review_of_ride. apply String.eqb_eq. Qed.

Lemma review_of_ride_false rideId review :
  review_of_ride rideId review = false ↔ RideReviewRecord.rideId review ≠ rideId.
Proof. unfold review_of_ride. apply String.eqb_neq. Qed.

Lemma falsy_string_true (s : string) : falsy_string s = true ↔ s = "".
Proof. destruct s; simpl; split; congruence. Qed.

Lemma falsy_string_false (s : string) : falsy_string s = false ↔ s ≠ "".
Proof. destruct s; simpl; split; congruence. Qed.

Lemma falsy_number_true (n : number) : falsy_number n = true ↔ zero_or_nan n.
Proof.
  unfold falsy_number, zero_or_nan.
  by rewrite orb_true_iff, negb_true_iff.
Qed.

Lemma falsy_number_false (n : number) : falsy_number n = false ↔ ¬ zero_or_nan n.
Proof.
  rewrite <- falsy_number_true. destruct (falsy_number n); split; congruence.
Qed.

(** The comparison of binary64 values is antisymmetric where it is defined. *)
Lemma SFcompare_antisym (x y : spec_float) :
  SFcompare y x = option_map CompOpp (SFcompare x y).
Proof.
  destruct x as [sx | sx | | sx mx ex], y as [sy | sy | | sy my ey]; simpl;
    try reflexivity;
    try (by destruct sx); try (by destruct sy); try (by destruct sx, sy).
  destruct sx, sy; try reflexivity; f_equal;
    rewrite (Z.compare_antisym ex ey); destruct (ex ?= ey)%Z; simpl;
    try reflexivity;
    rewrite Pos.compare_cont_antisym; simpl;
    try rewrite CompOpp_involutive; reflexivity.
Qed.

(** [x <= y] excludes [y < x]. *)
Lemma number_leb_ltb (x y : number) :
  number_leb x y = true → number_ltb y x = false.
Proof.
  unfold number_leb, number_ltb.
  rewrite FloatAxioms.leb_spec, FloatAxioms.ltb_spec. unfold SFleb, SFltb.
  rewrite (SFcompare_antisym (Prim2SF x)).
  by destruct (SFcompare (Prim2SF x) (Prim2SF y)) as [[] |].
Qed.

Lemma no_review_empty rideId : no_review rideId ∅.
Proof. intros k review H. by rewrite lookup_empty in H. Qed.

Lemma no_review_insert rideId (m : gmap string RideReviewRecord.t) k review :
  no_review rideId m → RideReviewRecord.rideId review ≠ rideId →
  no_review rideId (<[k := review]> m).
Proof.
  intros Hm Hreview k' review'. rewrite lookup_insert.
  case_decide; [by intros [= <-] | by apply Hm].
Qed.

Lemma filter_Permutation {A : Type} (f : A → bool) (l l' : list A) :
  l ≡ₚ l' → List.filter f l ≡ₚ List.filter f l'.
Proof.
  induction 1 as [| x l l' _ IH | x y l | l l' l'' _ IH1 _ IH2]; simpl.
  - done.
  - destruct (f x); [by constructor | done].
  - destruct (f x), (f y); try done. apply perm_swap.
  - by etrans.
Qed.

(** * Facts about the recomputing version *)

Module PlainFacts.
Import Plain.

(** ** Read-only computations *)

Lemma plain_rideStorage_get_read_only k : read_only (rideStorage_get k).
Proof. intros st. reflexivity. Qed.

Lemma plain_rideStorage_values_read_only : read_only rideStorage_values.
Proof. intros st. reflexivity. Qed.

Lemma plain_rideReviewStorage_values_read_only : read_only rideReviewStorage_values.
Proof. intros st. reflexivity. Qed.

Ltac read_only_step_tac :=
  first
    [ apply read_only_ret
    | apply plain_rideStorage_get_read_only
    | apply plain_rideStorage_values_read_only
    | apply plain_rideReviewStorage_values_read_only
    | apply read_only_bind; [| intros ?]
    | match goal with
      | |- read_only (match ?x with _ => _ end) => destruct x
      end ].

Ltac solve_read_only := repeat read_only_step_tac.

Lemma plain_getRide_read_only id : read_only (getRide id).
Proof. unfold getRide. solve_read_only. Qed.

Lemma plain_getAllRides_read_only : read_only getAllRides.
Proof. unfold getAllRides. solve_read_only. Qed.

Lemma plain_getRideReviews_read_only rideId : read_only (getRideReviews rideId).
Proof. unfold getRideReviews. solve_read_only. Qed.

Lemma plain_getRideAverageRating_read_only rideId :
  read_only (getRideAverageRating rideId).
Proof. unfold getRideAverageRating. solve_read_only. Qed.

Lemma plain_searchRidesByStartLocation_read_only {host : Host} location :
  read_only (searchRidesByStartLocation location).
Proof. unfold searchRidesByStartLocation. solve_read_only. Qed.

Lemma plain_searchRidesByEndLocation_read_only {host : Host} location :
  read_only (searchRidesByEndLocation location).
Proof. unfold searchRidesByEndLocation. solve_read_only. Qed.

Lemma plain_filterRidesByDateRange_read_only startDate endDate :
  read_only (filterRidesByDateRange startDate endDate).
Proof. unfold filterRidesByDateRange. solve_read_only. Qed.

Lemma plain_filterRidesByAvailableSeats_read_only minSeats :
  read_only (filterRidesByAvailableSeats minSeats).
Proof. unfold filterRidesByAvailableSeats. solve_read_only. Qed.

Lemma plain_getRidesByProvider_read_only providerId :
  read_only (getRidesByProvider providerId).
Proof. unfold getRidesByProvider. solve_read_only. Qed.

(** ** What each mutating call returns and stores *)

Lemma plain_addRide_run uuid time payload st :
  addRide uuid time payload st =
    (Ok (record_of_payload uuid time payload),
     mkState (<[uuid := record_of_payload uuid time payload]> (rideStorage st))
             (rideReviewStorage st)).
Proof. reflexivity. Qed.

Lemma plain_addRideReview_run uuid time payload st :
  addRideReview uuid time payload st =
    (Ok (review_of_payload uuid time payload),
     mkState (rideStorage st)
             (<[uuid := review_of_payload uuid time payload]> (rideReviewStorage st))).
Proof. reflexivity. Qed.

Lemma plain_updateRide_None id time payload st :
  rideStorage st !! id = None →
  updateRide id time payload st = (Err (NotFound id), st).
Proof. intros H. unfold updateRide, bind, rideStorage_get. by rewrite H. Qed.

Lemma plain_updateRide_Some id time payload st record :
  rideStorage st !! id = Some record →
  updateRide id time payload st =
    (Ok (merge_payload record payload time),
     mkState (<[RideRecord.id record := merge_payload record payload time]>
                (rideStorage st))
             (rideReviewStorage st)).
Proof. intros H. unfold updateRide, bind, rideStorage_get. by rewrite H. Qed.

Lemma plain_update_field_None {V} (update : RideRecord.t → V → nat64 → RideRecord.t)
    id time v st :
  rideStorage st !! id = None →
  update_field update id time v st = (Err (NotFound id), st).
Proof. intros H. unfold update_field, bind, rideStorage_get. by rewrite H. Qed.

Lemma plain_update_field_Some {V} (update : RideRecord.t → V → nat64 → RideRecord.t)
    id time v st record :
  rideStorage st !! id = Some record →
  update_field update id time v st =
    (Ok (update record v time),
     mkState (<[RideRecord.id record := update record v time]> (rideStorage st))
             (rideReviewStorage st)).
Proof. intros H. unfold update_field, bind, rideStorage_get. by rewrite H. Qed.

Lemma plain_deleteRide_None id st :
  rideStorage st !! id = None →
  deleteRide id st =
    (Err (NotFound id), mkState (delete id (rideStorage st)) (rideReviewStorage st)).
Proof. intros H. unfold deleteRide, bind, rideStorage_remove. by rewrite H. Qed.

Lemma plain_deleteRide_Some id st record :
  rideStorage st !! id = Some record →
  deleteRide id st =
    (Ok record, mkState (delete id (rideStorage st)) (rideReviewStorage st)).
Proof. intros H. unfold deleteRide, bind, rideStorage_remove. by rewrite H. Qed.

Lemma plain_getRide_None id st :
  rideStorage st !! id = None → getRide id st = (Err (NotFound id), st).
Proof. intros H. unfold getRide, bind, rideStorage_get. by rewrite H. Qed.

Lemma plain_getRide_Some id st record :
  rideStorage st !! id = Some record → getRide id st = (Ok record, st).
Proof. intros H. unfold getRide, bind, rideStorage_get. by rewrite H. Qed.

Lemma plain_getRideReviews_run rideId st :
  getRideReviews rideId st =
    (Ok (List.filter (review_of_ride rideId) (values (rideReviewStorage st))), st).
Proof. reflexivity. Qed.

(** The field-scoped update is the generic one on the record's own payload
    with the targeted field replaced. *)
Lemma plain_merge_payload_with u record time :
  merge_payload record (payload_with u (payload_of_record record)) time =
    match u with
    | SetStartLocation v => with_startLocation record v time
    | SetEndLocation v => with_endLocation record v time
    | SetDate v => with_date record v time
    | SetStartTime v => with_startTime record v time
    | SetEndTime v => with_endTime record v time
    | SetAvailableSeats v => with_availableSeats record v time
    end.
Proof. destruct record, u; reflexivity. Qed.

Lemma plain_updateRideField_Some u id time st record :
  rideStorage st !! id = Some record →
  updateRideField u id time st =
    updateRide id time (payload_with u (payload_of_record record)) st.
Proof.
  intros H. rewrite (plain_updateRide_Some _ _ _ _ _ H), plain_merge_payload_with.
  destruct u; simpl;
    unfold updateRideStartLocation, updateRideEndLocation, updateRideDate,
      updateRideStartTime, updateRideEndTime, updateRideAvailableSeats;
    by rewrite (plain_update_field_Some _ _ _ _ _ _ H).
Qed.

Lemma plain_updateRideField_None u id time st :
  rideStorage st !! id = None →
  updateRideField u id time st = (Err (NotFound id), st).
Proof.
  intros H.
  destruct u; simpl;
    unfold updateRideStartLocation, updateRideEndLocation, updateRideDate,
      updateRideStartTime, updateRideEndTime, updateRideAvailableSeats;
    by rewrite (plain_update_field_None _ _ _ _ _ H).
Qed.

(** ** Rides stay stored under their identifier *)

Lemma plain_keyed_init : keyed init.
Proof. intros k record H. unfold init in H. simpl in H. by rewrite lookup_empty in H. Qed.

Lemma plain_keyed_insert st k record :
  keyed st → RideRecord.id record = k →
  keyed (mkState (<[k := record]> (rideStorage st)) (rideReviewStorage st)).
Proof.
  intros Hst Hid k' record'. simpl. rewrite lookup_insert.
  case_decide; [| by apply Hst]. intros [= <-]. congruence.
Qed.

Lemma plain_keyed_delete st k :
  keyed st → keyed (mkState (delete k (rideStorage st)) (rideReviewStorage st)).
Proof.
  intros Hst k' record'. simpl. rewrite lookup_delete.
  case_decide; [done | by apply Hst].
Qed.

Lemma plain_keyed_step st st' : keyed st → step st st' → keyed st'.
Proof.
  intros Hst [uuid time payload | id time payload | u id time | id
             | uuid time payload Hfresh].
  - rewrite plain_addRide_run. simpl. by apply plain_keyed_insert.
  - destruct (rideStorage st !! id) as [record |] eqn:E.
    + rewrite (plain_updateRide_Some _ _ _ _ _ E). simpl. by apply plain_keyed_insert.
    + by rewrite (plain_updateRide_None _ _ _ _ E).
  - destruct (rideStorage st !! id) as [record |] eqn:E.
    + rewrite (plain_updateRideField_Some _ _ _ _ _ E), (plain_updateRide_Some _ _ _ _ _ E).
      simpl. by apply plain_keyed_insert.
    + by rewrite (plain_updateRideField_None _ _ _ _ E).
  - destruct (rideStorage st !! id) as [record |] eqn:E.
    + rewrite (plain_deleteRide_Some _ _ _ E). simpl. by apply plain_keyed_delete.
    + rewrite (plain_deleteRide_None _ _ E). simpl. by apply plain_keyed_delete.
  - rewrite plain_addRideReview_run. simpl. exact Hst.
Qed.

Lemma plain_keyed_reachable st : reachable st → keyed st.
Proof.
  unfold reachable. revert st. apply rtc_ind_r.
  - apply plain_keyed_init.
  - intros mid st _ Hstep IH. by eapply plain_keyed_step.
Qed.

(** ** The filters return the stored rides that satisfy the predicate *)

Lemma plain_filterRidesByAvailableSeats_run minSeats st :
  filterRidesByAvailableSeats minSeats st =
    (Ok (List.filter
           (fun ride => number_leb minSeats (RideRecord.availableSeats ride))
           (values (rideStorage st))), st).
Proof. reflexivity. Qed.

(** ** The average of a ride without reviews *)

Lemma plain_getRideAverageRating_no_review rideId st :
  no_review rideId (rideReviewStorage st) →
  getRideAverageRating rideId st = (Err NoReviews, st).
Proof.
  intros H. unfold getRideAverageRating, bind, rideReviewStorage_values.
  rewrite filter_values_nil; [done |].
  intros k review Hk. apply review_of_ride_false. by eapply H.
Qed.

End PlainFacts.

(** * Facts about the validating version *)

Module CachedFacts.
Import Cached.

(** ** Read-only computations *)

Lemma cached_rideStorage_get_read_only k : read_only (rideStorage_get k).
Proof. intros st. reflexivity. Qed.

Lemma cached_rideStorage_values_read_only : read_only rideStorage_values.
Proof. intros st. reflexivity. Qed.

Lemma cached_rideReviewStorage_values_read_only : read_only rideReviewStorage_values.
Proof. intros st. reflexivity. Qed.

Ltac read_only_step_tac :=
  first
    [ apply read_only_ret
    | apply read_only_retX
    | apply read_only_throw
    | apply cached_rideStorage_get_read_only
    | apply cached_rideStorage_values_read_only
    | apply cached_rideReviewStorage_values_read_only
    | match goal with
      | |- read_only (lift _) => apply read_only_lift
      | |- read_only (bindX _ _) => apply read_only_bindX; [| intros ?]
      | |- read_only (bind _ _) => apply read_only_bind; [| intros ?]
      | |- read_only (match ?x with _ => _ end) => destruct x
      end ].

Ltac solve_read_only := repeat read_only_step_tac.

Lemma cached_getRide_read_only id : read_only (getRide id).
Proof. unfold getRide. solve_read_only. Qed.

Lemma cached_getAllRides_read_only : read_only getAllRides.
Proof. unfold getAllRides. solve_read_only. Qed.

Lemma cached_getRideReviews_read_only rideId : read_only (getRideReviews rideId).
Proof. unfold getRideReviews. solve_read_only. Qed.

Lemma cached_getRideAverageRating_read_only rideId :
  read_only (getRideAverageRating rideId).
Proof. unfold getRideAverageRating, isSome, unwrap. solve_read_only. Qed.

Lemma cached_filterRides_read_only {host : Host} filterCriteria :
  read_only (filterRides filterCriteria).
Proof. unfold filterRides. solve_read_only. Qed.

Lemma cached_getRidesByProvider_read_only providerId :
  read_only (getRidesByProvider providerId).
Proof. unfold getRidesByProvider. solve_read_only. Qed.

(** ** Validation *)

Lemma cached_invalid_ride_payload_true payload :
  invalid_ride_payload payload = true ↔ missing_field payload.
Proof.
  unfold invalid_ride_payload, missing_field.
  rewrite !orb_true_iff, !falsy_string_true, falsy_number_true. tauto.
Qed.

Lemma cached_invalid_ride_payload_false payload :
  invalid_ride_payload payload = false ↔ ¬ missing_field payload.
Proof.
  rewrite <- cached_invalid_ride_payload_true.
  destruct (invalid_ride_payload payload); split; congruence.
Qed.

Lemma cached_invalid_review_payload_true payload :
  invalid_review_payload payload = true ↔ out_of_bounds_review_payload payload.
Proof.
  unfold invalid_review_payload, out_of_bounds_review_payload.
  rewrite !orb_true_iff, !falsy_string_true. tauto.
Qed.

(** The validation lets through the payloads with non-empty strings and a
    rating that is neither below 1 nor above 5. *)
Lemma cached_invalid_review_payload_false payload :
  invalid_review_payload payload = false ↔
    RideReviewPayload.rideId payload ≠ ""
    ∧ RideReviewPayload.userId payload ≠ ""
    ∧ RideReviewPayload.comment payload ≠ ""
    ∧ number_ltb (RideReviewPayload.rating payload) 1%float = false
    ∧ number_ltb 5%float (RideReviewPayload.rating payload) = false.
Proof.
  unfold invalid_review_payload.
  rewrite !orb_false_iff, !falsy_string_false. tauto.
Qed.

(** A rating between 1 and 5 is neither below 1 nor above 5. *)
Lemma cached_valid_review_payload_accepted payload :
  valid_review_payload payload → invalid_review_payload payload = false.
Proof.
  intros (Hride & Huser & Hcomment & Hlow & Hhigh).
  apply cached_invalid_review_payload_false.
  repeat split; try done; by apply number_leb_ltb.
Qed.

(** ** What each call returns and stores *)

Lemma cached_addRide_invalid uuid time payload st :
  invalid_ride_payload payload = true →
  addRide uuid time payload st = (Err InvalidPayload, st).
Proof. intros H. unfold addRide. by rewrite H. Qed.

Lemma cached_addRide_valid uuid time payload st :
  invalid_ride_payload payload = false →
  addRide uuid time payload st =
    (Ok (record_of_payload uuid time payload),
     mkState (<[uuid := record_of_payload uuid time payload]> (rideStorage st))
             (rideReviewStorage st)).
Proof. intros H. unfold addRide. by rewrite H. Qed.

Lemma cached_updateRide_None id time payload st :
  rideStorage st !! id = None →
  updateRide id time payload st = (Err (NotFound id), st).
Proof. intros H. unfold updateRide, bind, rideStorage_get. by rewrite H. Qed.

Lemma cached_updateRide_Some id time payload st record :
  rideStorage st !! id = Some record →
  updateRide id time payload st =
    (Ok (merge_patch record payload time),
     mkState (<[RideRecord.id record := merge_patch record payload time]>
                (rideStorage st))
             (rideReviewStorage st)).
Proof. intros H. unfold updateRide, bind, rideStorage_get. by rewrite H. Qed.

Lemma cached_deleteRide_None id st :
  rideStorage st !! id = None →
  deleteRide id st =
    (Err (NotFound id), mkState (delete id (rideStorage st)) (rideReviewStorage st)).
Proof. intros H. unfold deleteRide, bind, rideStorage_remove. by rewrite H. Qed.

Lemma cached_deleteRide_Some id st record :
  rideStorage st !! id = Some record →
  deleteRide id st =
    (Ok record, mkState (delete id (rideStorage st)) (rideReviewStorage st)).
Proof. intros H. unfold deleteRide, bind, rideStorage_remove. by rewrite H. Qed.

Lemma cached_getRide_None id st :
  rideStorage st !! id = None → getRide id st = (Err (NotFound id), st).
Proof. intros H. unfold getRide, bind, rideStorage_get. by rewrite H. Qed.

Lemma cached_getRide_Some id st record :
  rideStorage st !! id = Some record → getRide id st = (Ok record, st).
Proof. intros H. unfold getRide, bind, rideStorage_get. by rewrite H. Qed.

Lemma cached_getRideReviews_run rideId st :
  getRideReviews rideId st =
    (Ok (List.filter (review_of_ride rideId) (values (rideReviewStorage st))), st).
Proof. reflexivity. Qed.

Lemma cached_getRideAverageRating_None rideId st :
  rideStorage st !! rideId = None →
  getRideAverageRating rideId st = (Returned (Err RideNotFound), st).
Proof.
  intros H. unfold getRideAverageRating, bindX, lift, bind, rideStorage_get.
  simpl. by rewrite H.
Qed.

(** On a stored ride the first thing done is [record.averageRating.isSome()]. *)
Lemma cached_getRideAverageRating_Some rideId st record :
  rideStorage st !! rideId = Some record →
  getRideAverageRating rideId st =
    (Threw (TypeError "isSome"), st).
Proof.
  intros H. unfold getRideAverageRating, bindX, lift, bind, rideStorage_get.
  simpl. by rewrite H.
Qed.

(** The field-scoped update is the generic one on the record's own payload
    with the targeted field replaced. *)
Lemma cached_merge_patch_with u record time :
  merge_patch record
    (RidePatch.of_payload (payload_with u (payload_of_record record))) time =
  merge_patch record
    match u with
    | SetStartLocation v =>
        RidePatch.Build None None None None (Some v) None None None
    | SetEndLocation v =>
        RidePatch.Build None None None None None (Some v) None None
    | SetDate v =>
        RidePatch.Build None (Some v) None None None None None None
    | SetStartTime v =>
        RidePatch.Build None None (Some v) None None None None None
    | SetEndTime v =>
        RidePatch.Build None None None (Some v) None None None None
    | SetAvailableSeats v =>
        RidePatch.Build None None None None None None (Some v) None
    end time.
Proof. destruct record, u; reflexivity. Qed.

Lemma cached_updateRideField_Some u id time st record :
  rideStorage st !! id = Some record →
  updateRideField u id time st =
    updateRide id time
      (RidePatch.of_payload (payload_with u (payload_of_record record))) st.
Proof.
  intros H. rewrite (cached_updateRide_Some _ _ _ _ _ H), cached_merge_patch_with.
  destruct u; simpl;
    unfold updateRideStartLocation, updateRideEndLocation, updateRideDate,
      updateRideStartTime, updateRideEndTime, updateRideAvailableSeats;
    by rewrite (cached_updateRide_Some _ _ _ _ _ H).
Qed.

Lemma cached_updateRideField_None u id time st :
  rideStorage st !! id = None →
  updateRideField u id time st = (Err (NotFound id), st).
Proof.
  intros H.
  destruct u; simpl;
    unfold updateRideStartLocation, updateRideEndLocation, updateRideDate,
      updateRideStartTime, updateRideEndTime, updateRideAvailableSeats;
    by rewrite (cached_updateRide_None _ _ _ _ H).
Qed.

(** ** [updateRideAverageRating] and [addRideReview] *)

Lemma cached_updateRideAverageRating_None rideId newRating st :
  rideStorage st !! rideId = None →
  updateRideAverageRating rideId newRating st = (Returned tt, st).
Proof.
  intros H. unfold updateRideAverageRating, bindX, lift, bind, rideStorage_get.
  simpl. by rewrite H.
Qed.

(** On a stored ride the call of [isSome] throws before anything is stored. *)
Lemma cached_updateRideAverageRating_Some rideId newRating st record :
  rideStorage st !! rideId = Some record →
  updateRideAverageRating rideId newRating st =
    (Threw (TypeError "isSome"), st).
Proof.
  intros H. unfold updateRideAverageRating, bindX, lift, bind, rideStorage_get.
  simpl. by rewrite H.
Qed.

Lemma cached_addRideReview_invalid uuid time payload st :
  invalid_review_payload payload = true →
  addRideReview uuid time payload st = (Returned (Err InvalidPayload), st).
Proof. intros H. unfold addRideReview. by rewrite H. Qed.

Lemma cached_addRideReview_no_ride uuid time payload st :
  invalid_review_payload payload = false →
  rideStorage st !! RideReviewPayload.rideId payload = None →
  addRideReview uuid time payload st =
    (Returned (Ok (review_of_payload uuid time payload)),
     mkState (rideStorage st)
             (<[uuid := review_of_payload uuid time payload]>
                (rideReviewStorage st))).
Proof.
  intros Hvalid Hnone. unfold addRideReview. rewrite Hvalid.
  unfold bindX at 1, lift at 1, bind, rideReviewStorage_insert. simpl.
  unfold bindX. by rewrite cached_updateRideAverageRating_None.
Qed.

Lemma cached_addRideReview_stored_ride uuid time payload st record :
  invalid_review_payload payload = false →
  rideStorage st !! RideReviewPayload.rideId payload = Some record →
  addRideReview uuid time payload st =
    (Threw (TypeError "isSome"),
     mkState (rideStorage st)
             (<[uuid := review_of_payload uuid time payload]>
                (rideReviewStorage st))).
Proof.
  intros Hvalid Hsome. unfold addRideReview. rewrite Hvalid.
  unfold bindX at 1, lift at 1, bind, rideReviewStorage_insert. simpl.
  unfold bindX. by erewrite cached_updateRideAverageRating_Some.
Qed.

(** Whatever its outcome, [addRideReview] leaves the ride store as it was and
    the review store as it was or with the new review. *)
Lemma cached_addRideReview_stores uuid time payload st :
  rideStorage (addRideReview uuid time payload st).2 = rideStorage st
  ∧ (rideReviewStorage (addRideReview uuid time payload st).2 = rideReviewStorage st
     ∨ invalid_review_payload payload = false
       ∧ rideReviewStorage (addRideReview uuid time payload st).2 =
           <[uuid := review_of_payload uuid time payload]> (rideReviewStorage st)).
Proof.
  destruct (invalid_review_payload payload) eqn:Hvalid.
  - rewrite (cached_addRideReview_invalid _ _ _ _ Hvalid). split; [done | by left].
  - destruct (rideStorage st !! RideReviewPayload.rideId payload)
      as [record |] eqn:E.
    + rewrite (cached_addRideReview_stored_ride _ _ _ _ _ Hvalid E).
      split; [done | by right].
    + rewrite (cached_addRideReview_no_ride _ _ _ _ Hvalid E).
      split; [done | by right].
Qed.

(** ** The invariant of the reachable states *)

Lemma cached_keyed_insert st k record :
  keyed st → RideRecord.id record = k →
  keyed (mkState (<[k := record]> (rideStorage st)) (rideReviewStorage st)).
Proof.
  intros Hst Hid k' record'. simpl. rewrite lookup_insert.
  case_decide; [| by apply Hst]. intros [= <-]. congruence.
Qed.

Lemma cached_keyed_delete st k :
  keyed st → keyed (mkState (delete k (rideStorage st)) (rideReviewStorage st)).
Proof.
  intros Hst k' record'. simpl. rewrite lookup_delete.
  case_decide; [done | by apply Hst].
Qed.

Lemma cached_unrated_insert st k record :
  unrated st → RideRecord.averageRating record = None →
  unrated (mkState (<[k := record]> (rideStorage st)) (rideReviewStorage st)).
Proof.
  intros Hst Hrecord k' record'. simpl. rewrite lookup_insert.
  case_decide; [| by apply Hst]. by intros [= <-].
Qed.

Lemma cached_unrated_delete st k :
  unrated st → unrated (mkState (delete k (rideStorage st)) (rideReviewStorage st)).
Proof.
  intros Hst k' record'. simpl. rewrite lookup_delete.
  case_decide; [done | by apply Hst].
Qed.

Lemma cached_inv_init : inv init.
Proof.
  split; intros k record H; unfold init in H; simpl in H;
    by rewrite lookup_empty in H.
Qed.

Lemma cached_inv_updateRide id time payload st :
  inv st → inv (updateRide id time payload st).2.
Proof.
  intros [Hkeyed Hunrated].
  destruct (rideStorage st !! id) as [record |] eqn:E.
  - rewrite (cached_updateRide_Some _ _ _ _ _ E). simpl. split.
    + by apply cached_keyed_insert.
    + apply cached_unrated_insert; [done |]. simpl. by apply (Hunrated id).
  - by rewrite (cached_updateRide_None _ _ _ _ E).
Qed.

Lemma cached_inv_step st st' : inv st → step st st' → inv st'.
Proof.
  intros Hst [uuid time payload | id time payload | u id time | id
             | uuid time payload Hfresh].
  - destruct (invalid_ride_payload payload) eqn:Hvalid.
    + by rewrite (cached_addRide_invalid _ _ _ _ Hvalid).
    + rewrite (cached_addRide_valid _ _ _ _ Hvalid). destruct Hst as [Hkeyed Hunrated].
      simpl. split.
      * by apply cached_keyed_insert.
      * by apply cached_unrated_insert.
  - by apply cached_inv_updateRide.
  - destruct (rideStorage st !! id) as [record |] eqn:E.
    + rewrite (cached_updateRideField_Some _ _ _ _ _ E).
      by apply cached_inv_updateRide.
    + by rewrite (cached_updateRideField_None _ _ _ _ E).
  - destruct Hst as [Hkeyed Hunrated].
    assert (Hdel : inv (mkState (delete id (rideStorage st)) (rideReviewStorage st))).
    { split; [by apply cached_keyed_delete | by apply cached_unrated_delete]. }
    destruct (rideStorage st !! id) as [record |] eqn:E.
    + by rewrite (cached_deleteRide_Some _ _ _ E).
    + by rewrite (cached_deleteRide_None _ _ E).
  - destruct (cached_addRideReview_stores uuid time payload st) as [Hrides _].
    destruct Hst as [Hkeyed Hunrated]. split.
    + intros k record. rewrite Hrides. apply Hkeyed.
    + intros k record. rewrite Hrides. apply Hunrated.
Qed.

Lemma cached_inv_reachable st : reachable st → inv st.
Proof.
  unfold reachable. revert st. apply rtc_ind_r.
  - apply cached_inv_init.
  - intros mid st _ Hstep IH. by eapply cached_inv_step.
Qed.

End CachedFacts.

(** * The properties of the canister *)

Lemma commute_complete : ¬ missing_field commute.
Proof.
  unfold missing_field, zero_or_nan. simpl. intros H.
  repeat (destruct H as [H | H]; [discriminate H || by destruct H |]).
  discriminate H.
Qed.


Lemma review_rated_3_valid : valid_review_payload (review_rated 3%float).
Proof. unfold valid_review_payload. simpl. by repeat split. Qed.

Lemma plain_one_ride_keyed : Plain.keyed plain_one_ride.
Proof.
  apply (PlainFacts.plain_keyed_step Plain.init); [apply PlainFacts.plain_keyed_init |].
  apply Plain.step_addRide.
Qed.

Lemma cached_one_ride_keyed : Cached.keyed cached_one_ride.
Proof.
  apply (CachedFacts.cached_inv_step Cached.init);
    [apply CachedFacts.cached_inv_init |].
  apply Cached.step_addRide.
Qed.

Lemma plain_reviewed_ride_reachable : Plain.reachable plain_reviewed_ride.
Proof.
  eapply rtc_l; [apply (Plain.step_addRide Plain.init "ride-1" 1%N commute) |].
  apply rtc_once. by apply Plain.step_addRideReview.
Qed.

Lemma cached_reviewed_ride_reachable : Cached.reachable cached_reviewed_ride.
Proof.
  eapply rtc_l;
    [by apply (Cached.step_addRideReview Cached.init "review-a" 0%N
                 (review_rated 5%float)) |].
  apply rtc_once. apply Cached.step_addRide.
Qed.

(** A ride created with start location ["A"] is found by a search for
    ["a"]. *)
Example plain_search_mixed_case :
  (Plain.searchRidesByStartLocation (host := ascii_host) "a" plain_one_ride).1 =
    Ok [Plain.record_of_payload "ride-1" 1%N commute].
Proof. by vm_compute. Qed.

(** ** C1: the average rating is the mean of the submitted ratings *)

(** The recomputing version on the ratings 5, 3, 4, in two orders: 4. *)
Example plain_average_5_3_4 :
  (Plain.getRideAverageRating "ride-1"
     (Plain.addRideReviews calls_5_3_4 plain_one_ride).2).1 = Ok 4%float
  ∧ (Plain.getRideAverageRating "ride-1"
       (Plain.addRideReviews calls_3_5_4 plain_one_ride).2).1 = Ok 4%float.
Proof. split; by vm_compute. Qed.

(** C1, on the version of src/index.ts.  With one ride stored, [addRideReview]
    of a first review, rated 5, does not return: [updateRideAverageRating]
    calls [isSome] on the [averageRating] of the record, which throws.  The
    ride keeps its empty [averageRating], and [getRideAverageRating] of the
    ride throws in the same way.  The same holds in the state where the review
    was stored before the ride was added: the ride has one review, rated 5,
    and asking for its average throws.  No average is reported where the
    mean is expected. *)
Theorem C1_cached_average_is_never_reported :
  let st := (Cached.addRideReview "review-a" 2%N (review_rated 5%float)
               cached_one_ride).2 in
  (Cached.addRideReview "review-a" 2%N (review_rated 5%float) cached_one_ride).1 =
    Threw (TypeError "isSome")
  ∧ Cached.rideStorage st !! "ride-1" =
      Some (Cached.record_of_payload "ride-1" 1%N commute)
  ∧ Cached.RideRecord.averageRating
      (Cached.record_of_payload "ride-1" 1%N commute) = None
  ∧ (Cached.getRideAverageRating "ride-1" st).1 = Threw (TypeError "isSome")
  ∧ (Cached.getRideReviews "ride-1" cached_reviewed_ride).1 =
      Ok [review_of_payload "review-a" 0%N (review_rated 5%float)]
  ∧ (Cached.getRideAverageRating "ride-1" cached_reviewed_ride).1 =
      Threw (TypeError "isSome").
Proof. repeat split; by vm_compute. Qed.

(** ** C2: validation of the ride payload *)

(** The recomputing version accepts and stores a payload whose provider is
    empty: its [addRide] has no validation. *)
Lemma C2_plain_addRide_accepts_empty_field :
  missing_field commute_without_provider
  ∧ Plain.addRide "ride-1" 1%N commute_without_provider Plain.init =
      (Ok (Plain.record_of_payload "ride-1" 1%N commute_without_provider),
       Plain.mkState
         {[ "ride-1" := Plain.record_of_payload "ride-1" 1%N commute_without_provider ]}
         ∅)
  ∧ (Plain.addRide "ride-1" 1%N commute_without_provider Plain.init).1
      ≠ Err InvalidPayload.
Proof.
  split; [by left |]. split; [| discriminate].
  rewrite PlainFacts.plain_addRide_run. simpl. by rewrite insert_empty.
Qed.

(** C2, amended.  In the validating version, [addRide] on a payload with an
    empty string field, or with seats that are zero or NaN, returns
    [InvalidPayload] and leaves the stores as they were; on any other payload
    it returns and stores, under the generated identifier, the record with
    that identifier, the creation time, the payload's values and [updatedAt]
    and [averageRating] empty.  In the version without validation, [addRide]
    succeeds on every payload in the same way (its records have no
    [averageRating]). *)
Theorem C2_addRide_validation uuid time payload stC stP :
  (missing_field payload →
   Cached.addRide uuid time payload stC = (Err InvalidPayload, stC))
  ∧ (¬ missing_field payload →
     ∃ record,
       Cached.addRide uuid time payload stC =
         (Ok record,
          Cached.mkState (<[uuid := record]> (Cached.rideStorage stC))
                         (Cached.rideReviewStorage stC))
       ∧ Cached.RideRecord.id record = uuid
       ∧ Cached.RideRecord.createdAt record = time
       ∧ Cached.RideRecord.updatedAt record = None
       ∧ Cached.RideRecord.averageRating record = None
       ∧ Cached.payload_of_record record = payload)
  ∧ (∃ record,
       Plain.addRide uuid time payload stP =
         (Ok record,
          Plain.mkState (<[uuid := record]> (Plain.rideStorage stP))
                        (Plain.rideReviewStorage stP))
       ∧ Plain.RideRecord.id record = uuid
       ∧ Plain.RideRecord.createdAt record = time
       ∧ Plain.RideRecord.updatedAt record = None
       ∧ Plain.payload_of_record record = payload).
Proof.
  split; [| split].
  - intros H. apply CachedFacts.cached_addRide_invalid.
    by apply CachedFacts.cached_invalid_ride_payload_true.
  - intros H. apply CachedFacts.cached_invalid_ride_payload_false in H.
    exists (Cached.record_of_payload uuid time payload).
    rewrite (CachedFacts.cached_addRide_valid _ _ _ _ H). by destruct payload.
  - exists (Plain.record_of_payload uuid time payload).
    rewrite PlainFacts.plain_addRide_run. by destruct payload.
Qed.

Lemma C2_addRide_validation_witness :
  Cached.addRide "ride-1" 1%N commute_without_provider Cached.init =
    (Err InvalidPayload, Cached.init)
  ∧ Cached.addRide "ride-1" 1%N commute_with_nan_seats Cached.init =
      (Err InvalidPayload, Cached.init)
  ∧ ∃ record,
      Cached.addRide "ride-1" 1%N commute Cached.init =
        (Ok record, Cached.mkState (<[ "ride-1" := record ]> ∅) ∅)
      ∧ Cached.RideRecord.averageRating record = None.
Proof.
  split; [| split].
  - apply (C2_addRide_validation "ride-1" 1%N commute_without_provider
             Cached.init Plain.init).
    by left.
  - apply (C2_addRide_validation "ride-1" 1%N commute_with_nan_seats
             Cached.init Plain.init).
    do 6 right. left. by right.
  - destruct (C2_addRide_validation "ride-1" 1%N commute Cached.init Plain.init)
      as (_ & Hvalid & _).
    destruct (Hvalid commute_complete) as (record & Hrun & _ & _ & _ & Havg & _).
    exists record. split; [exact Hrun | exact Havg].
Defined.

(** ** C3: [updateRide] on a missing and on a stored identifier *)

(** C3.  In both versions, on states where rides are stored under their
    identifier (every reachable state): [updateRide] on an identifier that is
    not in the ride store returns [NotFound] and hands back the state as it
    was, both stores included; on a stored identifier it returns the updated
    record and stores it under that identifier, the record having the
    payload's values, [updatedAt] set to the time of the call, and the
    identifier and creation time it had; the review store is as it was. *)
Theorem C3_updateRide_not_found_or_applied id time payload stP stC :
  Plain.keyed stP → Cached.keyed stC →
  match Plain.rideStorage stP !! id with
  | None => Plain.updateRide id time payload stP = (Err (NotFound id), stP)
  | Some record =>
      ∃ updated,
        Plain.updateRide id time payload stP =
          (Ok updated,
           Plain.mkState (<[id := updated]> (Plain.rideStorage stP))
                         (Plain.rideReviewStorage stP))
        ∧ Plain.payload_of_record updated = payload
        ∧ Plain.RideRecord.updatedAt updated = Some time
        ∧ Plain.RideRecord.id updated = id
        ∧ Plain.RideRecord.createdAt updated = Plain.RideRecord.createdAt record
  end
  ∧ match Cached.rideStorage stC !! id with
    | None =>
        Cached.updateRide id time (Cached.RidePatch.of_payload payload) stC =
          (Err (NotFound id), stC)
    | Some record =>
        ∃ updated,
          Cached.updateRide id time (Cached.RidePatch.of_payload payload) stC =
            (Ok updated,
             Cached.mkState (<[id := updated]> (Cached.rideStorage stC))
                            (Cached.rideReviewStorage stC))
          ∧ Cached.payload_of_record updated = payload
          ∧ Cached.RideRecord.updatedAt updated = Some time
          ∧ Cached.RideRecord.id updated = id
          ∧ Cached.RideRecord.createdAt updated = Cached.RideRecord.createdAt record
          ∧ Cached.RideRecord.averageRating updated =
              Cached.RideRecord.averageRating record
    end.
Proof.
  intros HkeyedP HkeyedC. split.
  - destruct (Plain.rideStorage stP !! id) as [record |] eqn:E.
    + exists (Plain.merge_payload record payload time).
      rewrite (PlainFacts.plain_updateRide_Some _ _ _ _ _ E), (HkeyedP _ _ E).
      destruct payload. simpl. by rewrite (HkeyedP _ _ E).
    + by apply PlainFacts.plain_updateRide_None.
  - destruct (Cached.rideStorage stC !! id) as [record |] eqn:E.
    + exists (Cached.merge_patch record (Cached.RidePatch.of_payload payload) time).
      rewrite (CachedFacts.cached_updateRide_Some _ _ _ _ _ E), (HkeyedC _ _ E).
      destruct payload. simpl. by rewrite (HkeyedC _ _ E).
    + by apply CachedFacts.cached_updateRide_None.
Qed.

Lemma C3_updateRide_not_found_or_applied_witness :
  Plain.updateRide "ride-2" 5%N commute_without_provider plain_one_ride =
    (Err (NotFound "ride-2"), plain_one_ride)
  ∧ ∃ updated,
      Cached.updateRide "ride-1" 5%N
        (Cached.RidePatch.of_payload commute_without_provider) cached_one_ride =
        (Ok updated,
         Cached.mkState (<[ "ride-1" := updated ]> (Cached.rideStorage cached_one_ride))
                        (Cached.rideReviewStorage cached_one_ride))
      ∧ Cached.payload_of_record updated = commute_without_provider.
Proof.
  pose proof plain_one_ride_keyed as HP.
  pose proof cached_one_ride_keyed as HC.
  split.
  - apply (C3_updateRide_not_found_or_applied "ride-2" 5%N commute_without_provider
             plain_one_ride cached_one_ride HP HC).
  - destruct (C3_updateRide_not_found_or_applied "ride-1" 5%N commute_without_provider
                plain_one_ride cached_one_ride HP HC) as [_ H].
    destruct H as (updated & Hrun & Hpayload & _).
    exists updated. split; [exact Hrun | exact Hpayload].
Defined.

(** ** C4: [filterRidesByAvailableSeats] *)

(** C4.  For every state and every bound, [filterRidesByAvailableSeats]
    succeeds, leaves the state as it was, and returns a list whose members are
    exactly the stored rides with at least that many seats; a second call on
    the state handed back returns the same list. *)
Theorem C4_filterRidesByAvailableSeats_exact (minSeats : number) (st : Plain.State) :
  ∃ rides,
    Plain.filterRidesByAvailableSeats minSeats st = (Ok rides, st)
    ∧ (∀ ride,
         In ride rides ↔
           (∃ k, Plain.rideStorage st !! k = Some ride)
           ∧ number_leb minSeats (Plain.RideRecord.availableSeats ride) = true)
    ∧ Plain.filterRidesByAvailableSeats minSeats
        (Plain.filterRidesByAvailableSeats minSeats st).2 = (Ok rides, st).
Proof.
  eexists. rewrite PlainFacts.plain_filterRidesByAvailableSeats_run.
  split; [reflexivity |]. split; [| reflexivity].
  intros ride. by rewrite filter_values_In.
Qed.

(** ** C5: the average of a ride without reviews *)

(** The version of src/index.ts, asked for the average of an identifier that
    is in neither store, fails with ["Ride not found"], not with
    [NoReviews]. *)
Lemma C5_cached_missing_ride_is_not_found :
  no_review "ride-9" (Cached.rideReviewStorage Cached.init)
  ∧ (Cached.getRideAverageRating "ride-9" Cached.init).1 =
      Returned (Err RideNotFound)
  ∧ (Cached.getRideAverageRating "ride-9" Cached.init).1 ≠
      Returned (Err NoReviews).
Proof.
  split; [| split].
  - apply no_review_empty.
  - reflexivity.
  - discriminate.
Qed.

(** C5, amended.  When no stored review has the given [rideId], the
    recomputing [getRideAverageRating] fails with [NoReviews]; the
    [getRideAverageRating] of src/index.ts fails with ["Ride not found"] when
    the ride is not in the ride store, with or without reviews.  Neither
    changes the state. *)
Theorem C5_average_without_reviews rideId stP stC :
  no_review rideId (Plain.rideReviewStorage stP) →
  Cached.rideStorage stC !! rideId = None →
  Plain.getRideAverageRating rideId stP = (Err NoReviews, stP)
  ∧ Cached.getRideAverageRating rideId stC = (Returned (Err RideNotFound), stC).
Proof.
  intros HnoneP HC. split.
  - by apply PlainFacts.plain_getRideAverageRating_no_review.
  - by apply CachedFacts.cached_getRideAverageRating_None.
Qed.

Lemma C5_average_without_reviews_witness :
  Plain.getRideAverageRating "ride-2" plain_one_ride = (Err NoReviews, plain_one_ride)
  ∧ Cached.getRideAverageRating "ride-2" cached_one_ride =
      (Returned (Err RideNotFound), cached_one_ride).
Proof.
  apply (C5_average_without_reviews "ride-2" plain_one_ride cached_one_ride).
  - apply no_review_empty.
  - reflexivity.
Defined.

(** ** C6: [deleteRide] removes the ride and keeps its reviews *)

(** C6.  In both versions, [deleteRide] on a stored identifier returns the
    stored record; in the state it leaves, [getRide] on that identifier fails
    with [NotFound], the review store is as it was, and [getRideReviews]
    returns what it returned before, which has every stored review of the
    ride. *)
Theorem C6_deleteRide_keeps_reviews id stP stC recordP recordC :
  Plain.rideStorage stP !! id = Some recordP →
  Cached.rideStorage stC !! id = Some recordC →
  (∃ stP',
     Plain.deleteRide id stP = (Ok recordP, stP')
     ∧ Plain.getRide id stP' = (Err (NotFound id), stP')
     ∧ Plain.rideReviewStorage stP' = Plain.rideReviewStorage stP
     ∧ (Plain.getRideReviews id stP').1 = (Plain.getRideReviews id stP).1
     ∧ ∀ k review,
         Plain.rideReviewStorage stP !! k = Some review →
         RideReviewRecord.rideId review = id →
         ∃ reviews, (Plain.getRideReviews id stP').1 = Ok reviews ∧ In review reviews)
  ∧ (∃ stC',
       Cached.deleteRide id stC = (Ok recordC, stC')
       ∧ Cached.getRide id stC' = (Err (NotFound id), stC')
       ∧ Cached.rideReviewStorage stC' = Cached.rideReviewStorage stC
       ∧ (Cached.getRideReviews id stC').1 = (Cached.getRideReviews id stC).1
       ∧ ∀ k review,
           Cached.rideReviewStorage stC !! k = Some review →
           RideReviewRecord.rideId review = id →
           ∃ reviews,
             (Cached.getRideReviews id stC').1 = Ok reviews ∧ In review reviews).
Proof.
  intros HP HC. split.
  - eexists. rewrite (PlainFacts.plain_deleteRide_Some _ _ _ HP).
    split; [reflexivity |]. split; [| split; [done | split; [done |]]].
    + apply PlainFacts.plain_getRide_None. simpl. apply lookup_delete_eq.
    + intros k review Hk Hride. eexists. rewrite PlainFacts.plain_getRideReviews_run.
      split; [reflexivity |]. simpl. apply filter_values_In. split; [by exists k |].
      by apply review_of_ride_true.
  - eexists. rewrite (CachedFacts.cached_deleteRide_Some _ _ _ HC).
    split; [reflexivity |]. split; [| split; [done | split; [done |]]].
    + apply CachedFacts.cached_getRide_None. simpl. apply lookup_delete_eq.
    + intros k review Hk Hride. eexists. rewrite CachedFacts.cached_getRideReviews_run.
      split; [reflexivity |]. simpl. apply filter_values_In. split; [by exists k |].
      by apply review_of_ride_true.
Qed.

Lemma C6_deleteRide_keeps_reviews_witness :
  ∃ stP' stC' reviews,
    (Plain.deleteRide "ride-1" plain_reviewed_ride).2 = stP'
    ∧ (Cached.deleteRide "ride-1" cached_reviewed_ride).2 = stC'
    ∧ (Plain.getRide "ride-1" stP').1 = Err (NotFound "ride-1")
    ∧ (Cached.getRideReviews "ride-1" stC').1 = Ok reviews
    ∧ In (review_of_payload "review-a" 0%N (review_rated 5%float)) reviews.
Proof.
  destruct (C6_deleteRide_keeps_reviews "ride-1" plain_reviewed_ride
              cached_reviewed_ride
              (Plain.record_of_payload "ride-1" 1%N commute)
              (Cached.record_of_payload "ride-1" 1%N commute))
    as [(stP' & HdelP & HgetP & _) (stC' & HdelC & _ & _ & _ & Hkept)].
  - reflexivity.
  - reflexivity.
  - destruct (Hkept "review-a"
                (review_of_payload "review-a" 0%N (review_rated 5%float)))
      as (reviews & Hrun & Hin); [reflexivity | reflexivity |].
    exists stP', stC', reviews.
    rewrite HdelP, HdelC, HgetP.
    split; [reflexivity |]. split; [reflexivity |]. split; [reflexivity |].
    split; [exact Hrun | exact Hin].
Defined.

(** ** C7: the queries do not change the stores *)

(** C7.  In both versions every query -- [getRide], [getAllRides],
    [getRideReviews], [getRideAverageRating], the two searches by location,
    the filters by date range and by seats, [getRidesByProvider] and the
    combined [filterRides] -- hands back the state it was given, for every
    argument and every state. *)
Theorem C7_queries_are_read_only {host : Host} :
  ((∀ id, read_only (Plain.getRide id))
   ∧ read_only Plain.getAllRides
   ∧ (∀ rideId, read_only (Plain.getRideReviews rideId))
   ∧ (∀ rideId, read_only (Plain.getRideAverageRating rideId))
   ∧ (∀ location, read_only (Plain.searchRidesByStartLocation location))
   ∧ (∀ location, read_only (Plain.searchRidesByEndLocation location))
   ∧ (∀ startDate endDate,
        read_only (Plain.filterRidesByDateRange startDate endDate))
   ∧ (∀ minSeats, read_only (Plain.filterRidesByAvailableSeats minSeats))
   ∧ (∀ providerId, read_only (Plain.getRidesByProvider providerId)))
  ∧ ((∀ id, read_only (Cached.getRide id))
     ∧ read_only Cached.getAllRides
     ∧ (∀ rideId, read_only (Cached.getRideReviews rideId))
     ∧ (∀ rideId, read_only (Cached.getRideAverageRating rideId))
     ∧ (∀ filterCriteria, read_only (Cached.filterRides filterCriteria))
     ∧ (∀ providerId, read_only (Cached.getRidesByProvider providerId))).
Proof.
  split; repeat (match goal with |- _ ∧ _ => split end); intros.
  - apply PlainFacts.plain_getRide_read_only.
  - apply PlainFacts.plain_getAllRides_read_only.
  - apply PlainFacts.plain_getRideReviews_read_only.
  - apply PlainFacts.plain_getRideAverageRating_read_only.
  - apply PlainFacts.plain_searchRidesByStartLocation_read_only.
  - apply PlainFacts.plain_searchRidesByEndLocation_read_only.
  - apply PlainFacts.plain_filterRidesByDateRange_read_only.
  - apply PlainFacts.plain_filterRidesByAvailableSeats_read_only.
  - apply PlainFacts.plain_getRidesByProvider_read_only.
  - apply CachedFacts.cached_getRide_read_only.
  - apply CachedFacts.cached_getAllRides_read_only.
  - apply CachedFacts.cached_getRideReviews_read_only.
  - apply CachedFacts.cached_getRideAverageRating_read_only.
  - apply CachedFacts.cached_filterRides_read_only.
  - apply CachedFacts.cached_getRidesByProvider_read_only.
Qed.

(** ** C8: a review for a ride that is not stored *)



(** ** C9: the field-scoped updates and the generic update *)

(** C9.  In both versions, each of the six field-scoped updates, at the same
    time of call, returns the same result and leaves the same state as
    [updateRide] with a payload that has the record's values and the new value
    for the targeted field.  On a stored ride it returns a record that has
    the new value in that field, the record's values in the others, the
    record's identifier and creation time, and [updatedAt] set; it stores that
    record under the record's identifier and changes nothing else in the two
    stores, so that, rides being stored under their identifier, [getRide]
    then returns it.  On a missing ride the field-scoped and the generic
    update both fail with [NotFound] and change nothing. *)
Theorem C9_field_update_is_updateRide u id time payload stP stC :
  (∀ record, Plain.rideStorage stP !! id = Some record →
             payload = payload_with u (Plain.payload_of_record record)) →
  (∀ record, Cached.rideStorage stC !! id = Some record →
             payload = payload_with u (Cached.payload_of_record record)) →
  (Plain.updateRideField u id time stP = Plain.updateRide id time payload stP
   ∧ match Plain.rideStorage stP !! id with
     | Some record =>
         ∃ updated,
           Plain.updateRideField u id time stP =
             (Ok updated,
              Plain.mkState
                (<[Plain.RideRecord.id record := updated]> (Plain.rideStorage stP))
                (Plain.rideReviewStorage stP))
           ∧ Plain.payload_of_record updated =
               payload_with u (Plain.payload_of_record record)
           ∧ Plain.RideRecord.id updated = Plain.RideRecord.id record
           ∧ Plain.RideRecord.createdAt updated = Plain.RideRecord.createdAt record
           ∧ Plain.RideRecord.updatedAt updated = Some time
           ∧ (Plain.keyed stP →
              Plain.rideStorage (Plain.updateRideField u id time stP).2 !! id =
                Some updated
              ∧ (Plain.getRide id (Plain.updateRideField u id time stP).2).1 =
                  Ok updated
              ∧ ∀ k, k ≠ id →
                  Plain.rideStorage (Plain.updateRideField u id time stP).2 !! k =
                    Plain.rideStorage stP !! k)
     | None => Plain.updateRideField u id time stP = (Err (NotFound id), stP)
     end)
  ∧ (Cached.updateRideField u id time stC =
       Cached.updateRide id time (Cached.RidePatch.of_payload payload) stC
     ∧ match Cached.rideStorage stC !! id with
       | Some record =>
           ∃ updated,
             Cached.updateRideField u id time stC =
               (Ok updated,
                Cached.mkState
                  (<[Cached.RideRecord.id record := updated]>
                     (Cached.rideStorage stC))
                  (Cached.rideReviewStorage stC))
             ∧ Cached.payload_of_record updated =
                 payload_with u (Cached.payload_of_record record)
             ∧ Cached.RideRecord.id updated = Cached.RideRecord.id record
             ∧ Cached.RideRecord.createdAt updated =
                 Cached.RideRecord.createdAt record
             ∧ Cached.RideRecord.averageRating updated =
                 Cached.RideRecord.averageRating record
             ∧ Cached.RideRecord.updatedAt updated = Some time
             ∧ (Cached.keyed stC →
                Cached.rideStorage (Cached.updateRideField u id time stC).2 !! id =
                  Some updated
                ∧ (Cached.getRide id (Cached.updateRideField u id time stC).2).1 =
                    Ok updated
                ∧ ∀ k, k ≠ id →
                    Cached.rideStorage (Cached.updateRideField u id time stC).2 !! k =
                      Cached.rideStorage stC !! k)
       | None => Cached.updateRideField u id time stC = (Err (NotFound id), stC)
       end).
Proof.
  intros HP HC. split.
  - destruct (Plain.rideStorage stP !! id) as [record |] eqn:E.
    + rewrite (HP record eq_refl). split.
      * by apply PlainFacts.plain_updateRideField_Some.
      * exists (Plain.merge_payload record
                  (payload_with u (Plain.payload_of_record record)) time).
        rewrite (PlainFacts.plain_updateRideField_Some _ _ _ _ _ E).
        rewrite (PlainFacts.plain_updateRide_Some _ _ _ _ _ E).
        split; [reflexivity |].
        split; [by destruct record, u |].
        split; [reflexivity |]. split; [reflexivity |]. split; [reflexivity |].
        intros Hkeyed. cbn [snd Plain.rideStorage Plain.merge_payload Plain.RideRecord.id].
        rewrite (Hkeyed _ _ E).
        assert (Hstored :
          <[id := Plain.merge_payload record
                    (payload_with u (Plain.payload_of_record record)) time]>
            (Plain.rideStorage stP) !! id =
          Some (Plain.merge_payload record
                  (payload_with u (Plain.payload_of_record record)) time))
          by apply lookup_insert_eq.
        split; [exact Hstored |]. split.
        -- erewrite PlainFacts.plain_getRide_Some by (simpl; exact Hstored).
           reflexivity.
        -- intros k Hne. by rewrite lookup_insert_ne.
    + rewrite (PlainFacts.plain_updateRideField_None _ _ _ _ E).
      by rewrite (PlainFacts.plain_updateRide_None _ _ _ _ E).
  - destruct (Cached.rideStorage stC !! id) as [record |] eqn:E.
    + rewrite (HC record eq_refl). split.
      * by apply CachedFacts.cached_updateRideField_Some.
      * exists (Cached.merge_patch record
                  (Cached.RidePatch.of_payload
                     (payload_with u (Cached.payload_of_record record))) time).
        rewrite (CachedFacts.cached_updateRideField_Some _ _ _ _ _ E).
        rewrite (CachedFacts.cached_updateRide_Some _ _ _ _ _ E).
        split; [reflexivity |].
        split; [by destruct record, u |].
        split; [reflexivity |]. split; [reflexivity |]. split; [reflexivity |].
        split; [reflexivity |].
        intros Hkeyed.
        cbn [snd Cached.rideStorage Cached.merge_patch Cached.RideRecord.id].
        rewrite (Hkeyed _ _ E).
        assert (Hstored :
          <[id := Cached.merge_patch record
                    (Cached.RidePatch.of_payload
                       (payload_with u (Cached.payload_of_record record))) time]>
            (Cached.rideStorage stC) !! id =
          Some (Cached.merge_patch record
                  (Cached.RidePatch.of_payload
                     (payload_with u (Cached.payload_of_record record))) time))
          by apply lookup_insert_eq.
        split; [exact Hstored |]. split.
        -- erewrite CachedFacts.cached_getRide_Some by (simpl; exact Hstored).
           reflexivity.
        -- intros k Hne. by rewrite lookup_insert_ne.
    + rewrite (CachedFacts.cached_updateRideField_None _ _ _ _ E).
      by rewrite (CachedFacts.cached_updateRide_None _ _ _ _ E).
Qed.

Lemma C9_field_update_is_updateRide_witness :
  Plain.updateRideAvailableSeats "ride-1" 7%N 2%float plain_one_ride =
    Plain.updateRide "ride-1" 7%N
      (payload_with (SetAvailableSeats 2%float) commute) plain_one_ride
  ∧ Cached.updateRideAvailableSeats "ride-1" 7%N 2%float cached_one_ride =
      Cached.updateRide "ride-1" 7%N
        (Cached.RidePatch.of_payload
           (payload_with (SetAvailableSeats 2%float) commute))
        cached_one_ride
  ∧ ∃ updated,
      (Cached.getRide "ride-1"
         (Cached.updateRideAvailableSeats "ride-1" 7%N 2%float cached_one_ride).2).1
        = Ok updated
      ∧ Cached.payload_of_record updated =
          payload_with (SetAvailableSeats 2%float) commute.
Proof.
  destruct (C9_field_update_is_updateRide (SetAvailableSeats 2%float) "ride-1" 7%N
              (payload_with (SetAvailableSeats 2%float) commute)
              plain_one_ride cached_one_ride) as [[HP _] [HC Hstored]].
  - intros record H. vm_compute in H. injection H as <-. reflexivity.
  - intros record H. vm_compute in H. injection H as <-. reflexivity.
  - split; [exact HP |]. split; [exact HC |].
    destruct Hstored as (updated & _ & Hpayload & _ & _ & _ & _ & Hget).
    destruct (Hget cached_one_ride_keyed) as (_ & Hread & _).
    exists updated. split; [exact Hread | exact Hpayload].
Defined.

(** ** C10: [getRideReviews] never fails *)

(** C10.  In both versions, for every [rideId] and every state,
    [getRideReviews] succeeds, leaves the state as it was, and returns a list
    whose members are exactly the stored reviews with that [rideId]; the list
    is empty when no stored review has it, whether a ride with that
    identifier is stored or not. *)
Theorem C10_getRideReviews_never_fails rideId stP stC :
  (∃ reviews,
     Plain.getRideReviews rideId stP = (Ok reviews, stP)
     ∧ (∀ review,
          In review reviews ↔
            (∃ k, Plain.rideReviewStorage stP !! k = Some review)
            ∧ RideReviewRecord.rideId review = rideId)
     ∧ (no_review rideId (Plain.rideReviewStorage stP) → reviews = []))
  ∧ (∃ reviews,
       Cached.getRideReviews rideId stC = (Ok reviews, stC)
       ∧ (∀ review,
            In review reviews ↔
              (∃ k, Cached.rideReviewStorage stC !! k = Some review)
              ∧ RideReviewRecord.rideId review = rideId)
       ∧ (no_review rideId (Cached.rideReviewStorage stC) → reviews = [])).
Proof.
  split.
  - eexists. rewrite PlainFacts.plain_getRideReviews_run. split; [reflexivity |]. split.
    + intros review. by rewrite filter_values_In, review_of_ride_true.
    + intros Hnone. apply filter_values_nil. intros k review Hk.
      apply review_of_ride_false. by eapply Hnone.
  - eexists. rewrite CachedFacts.cached_getRideReviews_run. split; [reflexivity |]. split.
    + intros review. by rewrite filter_values_In, review_of_ride_true.
    + intros Hnone. apply filter_values_nil. intros k review Hk.
      apply review_of_ride_false. by eapply Hnone.
Qed.

Lemma C10_getRideReviews_never_fails_witness :
  Plain.getRideReviews "ride-9" plain_reviewed_ride = (Ok [], plain_reviewed_ride)
  ∧ ∃ reviews,
      Cached.getRideReviews "ride-1" cached_reviewed_ride =
        (Ok reviews, cached_reviewed_ride)
      ∧ In (review_of_payload "review-a" 0%N (review_rated 5%float)) reviews.
Proof.
  destruct (C10_getRideReviews_never_fails "ride-9" plain_reviewed_ride
              cached_reviewed_ride) as [(reviewsP & HrunP & _ & HnilP) _].
  destruct (C10_getRideReviews_never_fails "ride-1" plain_reviewed_ride
              cached_reviewed_ride) as [_ (reviewsC & HrunC & HinC & _)].
  split.
  - rewrite HrunP, HnilP; [reflexivity |].
    apply no_review_insert; [apply no_review_empty | discriminate].
  - exists reviewsC. split; [exact HrunC |]. apply HinC. split.
    + by exists "review-a".
    + reflexivity.
Defined.

(** * Further properties of the two versions *)

Lemma values_delete {V : Type} (m : gmap string V) k v :
  m !! k = Some v → v :: values (delete k m) ≡ₚ values m.
Proof.
  intros Hk. by rewrite !values_Permutation, <- (map_to_list_delete m k v Hk).
Qed.

Lemma filter_reviews_insert_fresh rideId (m : gmap string RideReviewRecord.t) k review :
  m !! k = None →
  List.filter (review_of_ride rideId) (values (<[k := review]> m)) ≡ₚ
    (if review_of_ride rideId review then [review] else [])
    ++ List.filter (review_of_ride rideId) (values m).
Proof.
  intros Hk. rewrite (filter_Permutation _ _ _ (values_insert_fresh m k review Hk)).
  simpl. by destruct (review_of_ride rideId review).
Qed.

(** ** Rides: insertion, lookup and removal *)

(** X1.  In both versions (with a payload that passes validation in the
    validating one): after [addRide], [getRide] on the generated identifier
    returns the record that [addRide] returned, [getRide] on any other
    identifier returns what it returned before, and, the identifier being
    fresh, [deleteRide] on it returns that record and gives back the state
    from before the [addRide]. *)
Theorem X1_addRide_getRide_deleteRide uuid time payload stP stC :
  ¬ missing_field payload →
  Plain.rideStorage stP !! uuid = None →
  Cached.rideStorage stC !! uuid = None →
  (∃ record stP',
     Plain.addRide uuid time payload stP = (Ok record, stP')
     ∧ Plain.getRide uuid stP' = (Ok record, stP')
     ∧ (∀ id, id ≠ uuid → (Plain.getRide id stP').1 = (Plain.getRide id stP).1)
     ∧ Plain.deleteRide uuid stP' = (Ok record, stP))
  ∧ (∃ record stC',
       Cached.addRide uuid time payload stC = (Ok record, stC')
       ∧ Cached.getRide uuid stC' = (Ok record, stC')
       ∧ (∀ id, id ≠ uuid → (Cached.getRide id stC').1 = (Cached.getRide id stC).1)
       ∧ Cached.deleteRide uuid stC' = (Ok record, stC)).
Proof.
  intros Hvalid HP HC. split.
  - eexists _, _. rewrite PlainFacts.plain_addRide_run. split; [reflexivity |].
    split; [| split].
    + apply PlainFacts.plain_getRide_Some. simpl. apply lookup_insert_eq.
    + intros id Hne. unfold Plain.getRide, bind, Plain.rideStorage_get. simpl.
      rewrite lookup_insert_ne by done. by destruct (Plain.rideStorage stP !! id).
    + erewrite PlainFacts.plain_deleteRide_Some by (simpl; apply lookup_insert_eq).
      simpl. rewrite delete_insert_id by done. by destruct stP.
  - apply CachedFacts.cached_invalid_ride_payload_false in Hvalid.
    eexists _, _. rewrite (CachedFacts.cached_addRide_valid _ _ _ _ Hvalid).
    split; [reflexivity |]. split; [| split].
    + apply CachedFacts.cached_getRide_Some. simpl. apply lookup_insert_eq.
    + intros id Hne. unfold Cached.getRide, bind, Cached.rideStorage_get. simpl.
      rewrite lookup_insert_ne by done. by destruct (Cached.rideStorage stC !! id).
    + erewrite CachedFacts.cached_deleteRide_Some by (simpl; apply lookup_insert_eq).
      simpl. rewrite delete_insert_id by done. by destruct stC.
Qed.

Lemma X1_addRide_getRide_deleteRide_witness :
  ∃ record,
    Cached.addRide "ride-2" 9%N commute cached_reviewed_ride =
      (Ok record, (Cached.addRide "ride-2" 9%N commute cached_reviewed_ride).2)
    ∧ Cached.deleteRide "ride-2"
        (Cached.addRide "ride-2" 9%N commute cached_reviewed_ride).2 =
        (Ok record, cached_reviewed_ride).
Proof.
  destruct (X1_addRide_getRide_deleteRide "ride-2" 9%N commute
              plain_reviewed_ride cached_reviewed_ride)
    as [_ (record & stC' & Hadd & _ & _ & Hdel)].
  - exact commute_complete.
  - reflexivity.
  - reflexivity.
  - exists record. rewrite Hadd. split; [reflexivity | exact Hdel].
Defined.

(** X2.  In both versions, [deleteRide] on an identifier that is not in the
    ride store fails with [NotFound] and leaves both stores as they were. *)
Theorem X2_deleteRide_missing id stP stC :
  Plain.rideStorage stP !! id = None →
  Cached.rideStorage stC !! id = None →
  Plain.deleteRide id stP = (Err (NotFound id), stP)
  ∧ Cached.deleteRide id stC = (Err (NotFound id), stC).
Proof.
  intros HP HC. split.
  - rewrite (PlainFacts.plain_deleteRide_None _ _ HP), delete_id by done.
    by destruct stP.
  - rewrite (CachedFacts.cached_deleteRide_None _ _ HC), delete_id by done.
    by destruct stC.
Qed.

Lemma X2_deleteRide_missing_witness :
  Plain.deleteRide "ride-2" plain_reviewed_ride =
    (Err (NotFound "ride-2"), plain_reviewed_ride)
  ∧ Cached.deleteRide "ride-2" cached_reviewed_ride =
      (Err (NotFound "ride-2"), cached_reviewed_ride).
Proof.
  apply (X2_deleteRide_missing "ride-2" plain_reviewed_ride cached_reviewed_ride);
    reflexivity.
Defined.

(** X3.  In both versions, [getAllRides] changes by exactly one record when a
    ride is added under a fresh identifier or a stored ride is deleted: after
    [addRide] it lists the new record and the rides listed before, after
    [deleteRide] the rides listed before are the deleted record and the rides
    listed after (as multisets). *)
Theorem X3_getAllRides_one_more_one_less uuid time payload id recordP recordC stP stC :
  ¬ missing_field payload →
  Plain.rideStorage stP !! uuid = None →
  Cached.rideStorage stC !! uuid = None →
  Plain.rideStorage stP !! id = Some recordP →
  Cached.rideStorage stC !! id = Some recordC →
  (∃ before added deleted,
     (Plain.getAllRides stP).1 = Ok before
     ∧ (Plain.getAllRides (Plain.addRide uuid time payload stP).2).1 = Ok added
     ∧ (Plain.getAllRides (Plain.deleteRide id stP).2).1 = Ok deleted
     ∧ added ≡ₚ Plain.record_of_payload uuid time payload :: before
     ∧ before ≡ₚ recordP :: deleted)
  ∧ (∃ before added deleted,
       (Cached.getAllRides stC).1 = Ok before
       ∧ (Cached.getAllRides (Cached.addRide uuid time payload stC).2).1 = Ok added
       ∧ (Cached.getAllRides (Cached.deleteRide id stC).2).1 = Ok deleted
       ∧ added ≡ₚ Cached.record_of_payload uuid time payload :: before
       ∧ before ≡ₚ recordC :: deleted).
Proof.
  intros Hvalid HfreshP HfreshC HP HC. split.
  - eexists _, _, _. split; [reflexivity |].
    rewrite PlainFacts.plain_addRide_run, (PlainFacts.plain_deleteRide_Some _ _ _ HP).
    split; [reflexivity |]. split; [reflexivity |]. simpl. split.
    + by apply values_insert_fresh.
    + symmetry. by apply values_delete.
  - apply CachedFacts.cached_invalid_ride_payload_false in Hvalid.
    eexists _, _, _. split; [reflexivity |].
    rewrite (CachedFacts.cached_addRide_valid _ _ _ _ Hvalid),
      (CachedFacts.cached_deleteRide_Some _ _ _ HC).
    split; [reflexivity |]. split; [reflexivity |]. simpl. split.
    + by apply values_insert_fresh.
    + symmetry. by apply values_delete.
Qed.

Lemma X3_getAllRides_one_more_one_less_witness :
  ∃ before added deleted,
    (Cached.getAllRides cached_one_ride).1 = Ok before
    ∧ (Cached.getAllRides (Cached.addRide "ride-2" 9%N commute cached_one_ride).2).1
        = Ok added
    ∧ (Cached.getAllRides (Cached.deleteRide "ride-1" cached_one_ride).2).1
        = Ok deleted
    ∧ length added = S (length before)
    ∧ length before = S (length deleted).
Proof.
  destruct (X3_getAllRides_one_more_one_less "ride-2" 9%N commute "ride-1"
              (Plain.record_of_payload "ride-1" 1%N commute)
              (Cached.record_of_payload "ride-1" 1%N commute)
              plain_one_ride cached_one_ride)
    as [_ (before & added & deleted & Hb & Ha & Hd & Hadd & Hdel)].
  - exact commute_complete.
  - reflexivity.
  - reflexivity.
  - reflexivity.
  - reflexivity.
  - exists before, added, deleted.
    split; [exact Hb |]. split; [exact Ha |]. split; [exact Hd |]. split.
    + rewrite Hadd. reflexivity.
    + rewrite Hdel. reflexivity.
Defined.

(** ** Reviews: one more review for its ride, the others as before *)

(** X4.  In both versions, [addRideReview] with a fresh identifier and a valid
    payload -- whose [rideId], in the validating version, is not in the ride
    store -- adds exactly that review to what [getRideReviews] returns for
    the payload's [rideId], and what [getRideReviews] returns for any other
    [rideId] has the same reviews as before (as multisets); the validating
    version returns the review. *)
Theorem X4_addRideReview_adds_one_review uuid time payload rideId stP stC :
  valid_review_payload payload →
  Plain.rideReviewStorage stP !! uuid = None →
  Cached.rideReviewStorage stC !! uuid = None →
  Cached.rideStorage stC !! RideReviewPayload.rideId payload = None →
  let review := review_of_payload uuid time payload in
  let added :=
    if String.eqb (RideReviewPayload.rideId payload) rideId then [review] else [] in
  (∃ before after,
     (Plain.getRideReviews rideId stP).1 = Ok before
     ∧ (Plain.getRideReviews rideId
          (Plain.addRideReview uuid time payload stP).2).1 = Ok after
     ∧ after ≡ₚ added ++ before)
  ∧ (∃ before after,
       (Cached.getRideReviews rideId stC).1 = Ok before
       ∧ (Cached.addRideReview uuid time payload stC).1 = Returned (Ok review)
       ∧ (Cached.getRideReviews rideId
            (Cached.addRideReview uuid time payload stC).2).1 = Ok after
       ∧ after ≡ₚ added ++ before).
Proof.
  intros Hvalid HP HC Hnone review added. split.
  - eexists _, _. rewrite !PlainFacts.plain_getRideReviews_run.
    split; [reflexivity |]. split; [reflexivity |].
    rewrite PlainFacts.plain_addRideReview_run. simpl.
    by apply filter_reviews_insert_fresh.
  - apply CachedFacts.cached_valid_review_payload_accepted in Hvalid.
    eexists _, _. rewrite !CachedFacts.cached_getRideReviews_run.
    rewrite (CachedFacts.cached_addRideReview_no_ride _ _ _ _ Hvalid Hnone).
    split; [reflexivity |]. split; [reflexivity |]. split; [reflexivity |].
    simpl. by apply filter_reviews_insert_fresh.
Qed.

Lemma X4_addRideReview_adds_one_review_witness :
  ∃ before after,
    (Cached.getRideReviews "ride-1" cached_only_review).1 = Ok before
    ∧ (Cached.getRideReviews "ride-1"
         (Cached.addRideReview "review-b" 3%N (review_rated 3%float)
            cached_only_review).2).1 = Ok after
    ∧ after ≡ₚ review_of_payload "review-b" 3%N (review_rated 3%float) :: before.
Proof.
  destruct (X4_addRideReview_adds_one_review "review-b" 3%N (review_rated 3%float)
              "ride-1" plain_reviewed_ride cached_only_review)
    as [_ (before & after & Hb & _ & Ha & Hperm)].
  - exact review_rated_3_valid.
  - reflexivity.
  - reflexivity.
  - reflexivity.
  - exists before, after. split; [exact Hb |]. split; [exact Ha | exact Hperm].
Defined.

(** ** How updates compose *)

Lemma plain_updateRide_keyed id time payload st record :
  Plain.keyed st → Plain.rideStorage st !! id = Some record →
  Plain.updateRide id time payload st =
    (Ok (Plain.merge_payload record payload time),
     Plain.mkState (<[id := Plain.merge_payload record payload time]>
                      (Plain.rideStorage st))
                   (Plain.rideReviewStorage st)).
Proof.
  intros Hkeyed E. rewrite (PlainFacts.plain_updateRide_Some _ _ _ _ _ E).
  simpl. by rewrite (Hkeyed _ _ E).
Qed.

Lemma cached_updateRide_keyed id time payload st record :
  Cached.keyed st → Cached.rideStorage st !! id = Some record →
  Cached.updateRide id time payload st =
    (Ok (Cached.merge_patch record payload time),
     Cached.mkState (<[id := Cached.merge_patch record payload time]>
                       (Cached.rideStorage st))
                    (Cached.rideReviewStorage st)).
Proof.
  intros Hkeyed E. rewrite (CachedFacts.cached_updateRide_Some _ _ _ _ _ E).
  simpl. by rewrite (Hkeyed _ _ E).
Qed.

(** Two field-scoped updates in a row on a stored ride. *)
Lemma plain_two_field_updates u1 u2 id t1 t2 st record :
  Plain.keyed st → Plain.rideStorage st !! id = Some record →
  let r1 := Plain.merge_payload record
              (payload_with u1 (Plain.payload_of_record record)) t1 in
  let r2 := Plain.merge_payload r1 (payload_with u2 (Plain.payload_of_record r1)) t2 in
  Plain.updateRideField u2 id t2 (Plain.updateRideField u1 id t1 st).2 =
    (Ok r2, Plain.mkState (<[id := r2]> (Plain.rideStorage st))
                          (Plain.rideReviewStorage st)).
Proof.
  intros Hkeyed E r1 r2.
  rewrite (PlainFacts.plain_updateRideField_Some _ _ _ _ _ E).
  rewrite (plain_updateRide_keyed _ _ _ _ _ Hkeyed E). simpl. fold r1.
  set (st1 := Plain.mkState (<[id := r1]> (Plain.rideStorage st))
                            (Plain.rideReviewStorage st)).
  assert (E1 : Plain.rideStorage st1 !! id = Some r1) by apply lookup_insert_eq.
  assert (Hkeyed1 : Plain.keyed st1).
  { apply PlainFacts.plain_keyed_insert; [done |]. simpl. by apply Hkeyed. }
  rewrite (PlainFacts.plain_updateRideField_Some _ _ _ _ _ E1).
  rewrite (plain_updateRide_keyed _ _ _ _ _ Hkeyed1 E1). fold r2. simpl.
  by rewrite insert_insert_eq.
Qed.

Lemma cached_two_field_updates u1 u2 id t1 t2 st record :
  Cached.keyed st → Cached.rideStorage st !! id = Some record →
  let r1 := Cached.merge_patch record
              (Cached.RidePatch.of_payload
                 (payload_with u1 (Cached.payload_of_record record))) t1 in
  let r2 := Cached.merge_patch r1
              (Cached.RidePatch.of_payload
                 (payload_with u2 (Cached.payload_of_record r1))) t2 in
  Cached.updateRideField u2 id t2 (Cached.updateRideField u1 id t1 st).2 =
    (Ok r2, Cached.mkState (<[id := r2]> (Cached.rideStorage st))
                           (Cached.rideReviewStorage st)).
Proof.
  intros Hkeyed E r1 r2.
  rewrite (CachedFacts.cached_updateRideField_Some _ _ _ _ _ E).
  rewrite (cached_updateRide_keyed _ _ _ _ _ Hkeyed E). simpl. fold r1.
  set (st1 := Cached.mkState (<[id := r1]> (Cached.rideStorage st))
                             (Cached.rideReviewStorage st)).
  assert (E1 : Cached.rideStorage st1 !! id = Some r1) by apply lookup_insert_eq.
  assert (Hkeyed1 : Cached.keyed st1).
  { apply CachedFacts.cached_keyed_insert; [done |]. simpl. by apply Hkeyed. }
  rewrite (CachedFacts.cached_updateRideField_Some _ _ _ _ _ E1).
  rewrite (cached_updateRide_keyed _ _ _ _ _ Hkeyed1 E1). fold r2. simpl.
  by rewrite insert_insert_eq.
Qed.

(** X5.  In both versions, on states where rides are stored under their
    identifier, a generic [updateRide] makes an earlier [updateRide] of the
    same ride invisible: the second call returns the same result and leaves
    the same state as if the first had not been made. *)
Theorem X5_last_updateRide_wins id t1 t2 p1 p2 stP stC :
  Plain.keyed stP → Cached.keyed stC →
  Plain.updateRide id t2 p2 (Plain.updateRide id t1 p1 stP).2 =
    Plain.updateRide id t2 p2 stP
  ∧ Cached.updateRide id t2 (Cached.RidePatch.of_payload p2)
      (Cached.updateRide id t1 (Cached.RidePatch.of_payload p1) stC).2 =
    Cached.updateRide id t2 (Cached.RidePatch.of_payload p2) stC.
Proof.
  intros HP HC. split.
  - destruct (Plain.rideStorage stP !! id) as [record |] eqn:E.
    + rewrite (plain_updateRide_keyed _ t1 _ _ _ HP E),
        (plain_updateRide_keyed _ t2 _ _ _ HP E). simpl.
      set (r1 := Plain.merge_payload record p1 t1).
      set (st1 := Plain.mkState (<[id := r1]> (Plain.rideStorage stP))
                                (Plain.rideReviewStorage stP)).
      assert (E1 : Plain.rideStorage st1 !! id = Some r1) by apply lookup_insert_eq.
      assert (Hkeyed1 : Plain.keyed st1).
      { apply PlainFacts.plain_keyed_insert; [done |]. simpl. by apply HP. }
      rewrite (plain_updateRide_keyed _ _ _ _ _ Hkeyed1 E1). simpl.
      by rewrite insert_insert_eq.
    + by rewrite (PlainFacts.plain_updateRide_None _ t1 _ _ E).
  - destruct (Cached.rideStorage stC !! id) as [record |] eqn:E.
    + rewrite (cached_updateRide_keyed _ t1 _ _ _ HC E),
        (cached_updateRide_keyed _ t2 _ _ _ HC E). simpl.
      set (r1 := Cached.merge_patch record (Cached.RidePatch.of_payload p1) t1).
      set (st1 := Cached.mkState (<[id := r1]> (Cached.rideStorage stC))
                                 (Cached.rideReviewStorage stC)).
      assert (E1 : Cached.rideStorage st1 !! id = Some r1) by apply lookup_insert_eq.
      assert (Hkeyed1 : Cached.keyed st1).
      { apply CachedFacts.cached_keyed_insert; [done |]. simpl. by apply HC. }
      rewrite (cached_updateRide_keyed _ _ _ _ _ Hkeyed1 E1). simpl.
      by rewrite insert_insert_eq.
    + by rewrite (CachedFacts.cached_updateRide_None _ t1 _ _ E).
Qed.

Lemma X5_last_updateRide_wins_witness :
  Cached.updateRide "ride-1" 8%N (Cached.RidePatch.of_payload commute)
    (Cached.updateRide "ride-1" 7%N
       (Cached.RidePatch.of_payload commute_without_provider) cached_one_ride).2 =
  Cached.updateRide "ride-1" 8%N (Cached.RidePatch.of_payload commute) cached_one_ride.
Proof.
  apply (X5_last_updateRide_wins "ride-1" 7%N 8%N commute_without_provider commute
           plain_one_ride cached_one_ride plain_one_ride_keyed cached_one_ride_keyed).
Defined.

(** X6.  In both versions, on states where rides are stored under their
    identifier, two field-scoped updates of different fields of a ride give
    the same result and the same state in either order (the first call being
    made at the first time, the second at the second). *)
Theorem X6_field_updates_commute u1 u2 id t1 t2 stP stC :
  target u1 ≠ target u2 →
  Plain.keyed stP → Cached.keyed stC →
  Plain.updateRideField u2 id t2 (Plain.updateRideField u1 id t1 stP).2 =
    Plain.updateRideField u1 id t2 (Plain.updateRideField u2 id t1 stP).2
  ∧ Cached.updateRideField u2 id t2 (Cached.updateRideField u1 id t1 stC).2 =
      Cached.updateRideField u1 id t2 (Cached.updateRideField u2 id t1 stC).2.
Proof.
  intros Hne HP HC. split.
  - destruct (Plain.rideStorage stP !! id) as [record |] eqn:E.
    + rewrite (plain_two_field_updates u1 u2 _ _ _ _ _ HP E),
        (plain_two_field_updates u2 u1 _ _ _ _ _ HP E).
      assert (Heq :
        Plain.merge_payload
          (Plain.merge_payload record
             (payload_with u1 (Plain.payload_of_record record)) t1)
          (payload_with u2
             (Plain.payload_of_record
                (Plain.merge_payload record
                   (payload_with u1 (Plain.payload_of_record record)) t1))) t2 =
        Plain.merge_payload
          (Plain.merge_payload record
             (payload_with u2 (Plain.payload_of_record record)) t1)
          (payload_with u1
             (Plain.payload_of_record
                (Plain.merge_payload record
                   (payload_with u2 (Plain.payload_of_record record)) t1))) t2).
      { destruct record, u1, u2; try reflexivity; by destruct Hne. }
      cbv zeta. by rewrite Heq.
    + rewrite (PlainFacts.plain_updateRideField_None u1 _ t1 _ E),
        (PlainFacts.plain_updateRideField_None u2 _ t1 _ E). cbn [snd].
      by rewrite (PlainFacts.plain_updateRideField_None u1 _ t2 _ E),
        (PlainFacts.plain_updateRideField_None u2 _ t2 _ E).
  - destruct (Cached.rideStorage stC !! id) as [record |] eqn:E.
    + rewrite (cached_two_field_updates u1 u2 _ _ _ _ _ HC E),
        (cached_two_field_updates u2 u1 _ _ _ _ _ HC E).
      assert (Heq :
        Cached.merge_patch
          (Cached.merge_patch record
             (Cached.RidePatch.of_payload
                (payload_with u1 (Cached.payload_of_record record))) t1)
          (Cached.RidePatch.of_payload
             (payload_with u2
                (Cached.payload_of_record
                   (Cached.merge_patch record
                      (Cached.RidePatch.of_payload
                         (payload_with u1 (Cached.payload_of_record record))) t1))))
          t2 =
        Cached.merge_patch
          (Cached.merge_patch record
             (Cached.RidePatch.of_payload
                (payload_with u2 (Cached.payload_of_record record))) t1)
          (Cached.RidePatch.of_payload
             (payload_with u1
                (Cached.payload_of_record
                   (Cached.merge_patch record
                      (Cached.RidePatch.of_payload
                         (payload_with u2 (Cached.payload_of_record record))) t1))))
          t2).
      { destruct record, u1, u2; try reflexivity; by destruct Hne. }
      cbv zeta. by rewrite Heq.
    + rewrite (CachedFacts.cached_updateRideField_None u1 _ t1 _ E),
        (CachedFacts.cached_updateRideField_None u2 _ t1 _ E). cbn [snd].
      by rewrite (CachedFacts.cached_updateRideField_None u1 _ t2 _ E),
        (CachedFacts.cached_updateRideField_None u2 _ t2 _ E).
Qed.

Lemma X6_field_updates_commute_witness :
  Plain.updateRideDate "ride-1" 8%N "2024-02-01"
    (Plain.updateRideAvailableSeats "ride-1" 7%N 2%float plain_one_ride).2 =
  Plain.updateRideAvailableSeats "ride-1" 8%N 2%float
    (Plain.updateRideDate "ride-1" 7%N "2024-02-01" plain_one_ride).2.
Proof.
  apply (X6_field_updates_commute (SetAvailableSeats 2%float) (SetDate "2024-02-01")
           "ride-1" 7%N 8%N plain_one_ride cached_one_ride).
  - discriminate.
  - exact plain_one_ride_keyed.
  - exact cached_one_ride_keyed.
Defined.

(** ** Invariants of the reachable states *)

(** What a call does to the review store: nothing, or one insertion under a
    fresh identifier. *)
Lemma plain_step_reviews st st' :
  Plain.step st st' →
  Plain.rideReviewStorage st' = Plain.rideReviewStorage st
  ∨ ∃ uuid time payload,
      Plain.rideReviewStorage st !! uuid = None
      ∧ Plain.rideReviewStorage st' =
          <[uuid := review_of_payload uuid time payload]> (Plain.rideReviewStorage st).
Proof.
  intros [uuid time payload | id time payload | u id time | id
         | uuid time payload Hfresh].
  - left. by rewrite PlainFacts.plain_addRide_run.
  - left. destruct (Plain.rideStorage st !! id) as [record |] eqn:E.
    + by rewrite (PlainFacts.plain_updateRide_Some _ _ _ _ _ E).
    + by rewrite (PlainFacts.plain_updateRide_None _ _ _ _ E).
  - left. destruct (Plain.rideStorage st !! id) as [record |] eqn:E.
    + rewrite (PlainFacts.plain_updateRideField_Some _ _ _ _ _ E).
      by rewrite (PlainFacts.plain_updateRide_Some _ _ _ _ _ E).
    + by rewrite (PlainFacts.plain_updateRideField_None _ _ _ _ E).
  - left. destruct (Plain.rideStorage st !! id) as [record |] eqn:E.
    + by rewrite (PlainFacts.plain_deleteRide_Some _ _ _ E).
    + by rewrite (PlainFacts.plain_deleteRide_None _ _ E).
  - right. exists uuid, time, payload. split; [done |].
    by rewrite PlainFacts.plain_addRideReview_run.
Qed.

Lemma cached_step_reviews st st' :
  Cached.step st st' →
  Cached.rideReviewStorage st' = Cached.rideReviewStorage st
  ∨ ∃ uuid time payload,
      Cached.invalid_review_payload payload = false
      ∧ Cached.rideReviewStorage st !! uuid = None
      ∧ Cached.rideReviewStorage st' =
          <[uuid := review_of_payload uuid time payload]> (Cached.rideReviewStorage st).
Proof.
  intros [uuid time payload | id time payload | u id time | id
         | uuid time payload Hfresh].
  - left. destruct (Cached.invalid_ride_payload payload) eqn:Hvalid.
    + by rewrite (CachedFacts.cached_addRide_invalid _ _ _ _ Hvalid).
    + by rewrite (CachedFacts.cached_addRide_valid _ _ _ _ Hvalid).
  - left. destruct (Cached.rideStorage st !! id) as [record |] eqn:E.
    + by rewrite (CachedFacts.cached_updateRide_Some _ _ _ _ _ E).
    + by rewrite (CachedFacts.cached_updateRide_None _ _ _ _ E).
  - left. destruct (Cached.rideStorage st !! id) as [record |] eqn:E.
    + rewrite (CachedFacts.cached_updateRideField_Some _ _ _ _ _ E).
      by rewrite (CachedFacts.cached_updateRide_Some _ _ _ _ _ E).
    + by rewrite (CachedFacts.cached_updateRideField_None _ _ _ _ E).
  - left. destruct (Cached.rideStorage st !! id) as [record |] eqn:E.
    + by rewrite (CachedFacts.cached_deleteRide_Some _ _ _ E).
    + by rewrite (CachedFacts.cached_deleteRide_None _ _ E).
  - destruct (CachedFacts.cached_addRideReview_stores uuid time payload st)
      as [_ [Hsame | [Hvalid Hinsert]]].
    + by left.
    + right. by exists uuid, time, payload.
Qed.

Lemma plain_reviews_keyed_reachable st : Plain.reachable st → Plain.reviews_keyed st.
Proof.
  unfold Plain.reachable. revert st. apply rtc_ind_r.
  - intros k review H. unfold Plain.init in H. simpl in H.
    by rewrite lookup_empty in H.
  - intros mid st _ Hstep IH k review.
    destruct (plain_step_reviews _ _ Hstep) as [-> | (uuid & time & payload & _ & ->)].
    + apply IH.
    + rewrite lookup_insert. case_decide; [| by apply IH]. by intros [= <-].
Qed.

Lemma cached_reviews_keyed_reachable st :
  Cached.reachable st → Cached.reviews_keyed st.
Proof.
  unfold Cached.reachable. revert st. apply rtc_ind_r.
  - intros k review H. unfold Cached.init in H. simpl in H.
    by rewrite lookup_empty in H.
  - intros mid st _ Hstep IH k review.
    destruct (cached_step_reviews _ _ Hstep)
      as [-> | (uuid & time & payload & _ & _ & ->)].
    + apply IH.
    + rewrite lookup_insert. case_decide; [| by apply IH]. by intros [= <-].
Qed.

(** X7.  In every state the calls of the canister can reach (identifiers of
    new reviews being fresh), in both versions, every ride is stored under its
    own [id] and every review under its own [id]. *)
Theorem X7_records_stored_under_their_id stP stC :
  Plain.reachable stP → Cached.reachable stC →
  (Plain.keyed stP ∧ Plain.reviews_keyed stP)
  ∧ (Cached.keyed stC ∧ Cached.reviews_keyed stC).
Proof.
  intros HP HC. split; split.
  - by apply PlainFacts.plain_keyed_reachable.
  - by apply plain_reviews_keyed_reachable.
  - by apply CachedFacts.cached_inv_reachable.
  - by apply cached_reviews_keyed_reachable.
Qed.

Lemma X7_records_stored_under_their_id_witness :
  (Plain.keyed plain_reviewed_ride ∧ Plain.reviews_keyed plain_reviewed_ride)
  ∧ (Cached.keyed cached_reviewed_ride ∧ Cached.reviews_keyed cached_reviewed_ride).
Proof.
  apply (X7_records_stored_under_their_id plain_reviewed_ride cached_reviewed_ride
           plain_reviewed_ride_reachable cached_reviewed_ride_reachable).
Defined.

(** X8.  In every reachable state of the version of src/index.ts no ride has
    an [averageRating]: [addRide] stores it empty, the updates keep it, and
    [updateRideAverageRating] throws before it stores anything. *)
Theorem X8_cached_average_never_set st k record :
  Cached.reachable st →
  Cached.rideStorage st !! k = Some record →
  Cached.RideRecord.averageRating record = None.
Proof.
  intros Hreach Hk.
  destruct (CachedFacts.cached_inv_reachable st Hreach) as [_ Hunrated].
  by apply (Hunrated k record).
Qed.

Lemma X8_cached_average_never_set_witness :
  ∃ record,
    Cached.rideStorage cached_reviewed_ride !! "ride-1" = Some record
    ∧ Cached.RideRecord.averageRating record = None.
Proof.
  exists (Cached.record_of_payload "ride-1" 1%N commute).
  split; [reflexivity |].
  apply (X8_cached_average_never_set cached_reviewed_ride "ride-1"
           (Cached.record_of_payload "ride-1" 1%N commute)
           cached_reviewed_ride_reachable).
  reflexivity.
Defined.

(** ** Validation of reviews *)

(** X9.  In the validating version, [addRideReview] with an empty [rideId],
    [userId] or [comment], or a rating below 1 or above 5, fails with
    [InvalidPayload] and leaves both stores as they were. *)
Theorem X9_cached_addRideReview_rejects uuid time payload st :
  out_of_bounds_review_payload payload →
  Cached.addRideReview uuid time payload st = (Returned (Err InvalidPayload), st).
Proof.
  intros Hinvalid. apply CachedFacts.cached_addRideReview_invalid.
  by apply CachedFacts.cached_invalid_review_payload_true.
Qed.

Lemma X9_cached_addRideReview_rejects_witness :
  Cached.addRideReview "review-b" 3%N (review_rated 6%float) cached_one_ride =
    (Returned (Err InvalidPayload), cached_one_ride).
Proof.
  apply (X9_cached_addRideReview_rejects "review-b" 3%N (review_rated 6%float)
           cached_one_ride).
  do 4 right. reflexivity.
Defined.

(** X10.  In every reachable state of the validating version, every stored
    review passed the validation: its [rideId], [userId] and [comment] are not
    empty and its rating is neither below 1 nor above 5 (which NaN is not
    either). *)
Theorem X10_cached_stored_reviews_passed_validation st :
  Cached.reachable st → Cached.reviews_accepted st.
Proof.
  unfold Cached.reachable. revert st. apply rtc_ind_r.
  - intros k review H. unfold Cached.init in H. simpl in H.
    by rewrite lookup_empty in H.
  - intros mid st _ Hstep IH k review.
    destruct (cached_step_reviews _ _ Hstep)
      as [-> | (uuid & time & payload & Hvalid & _ & ->)].
    + apply IH.
    + rewrite lookup_insert. case_decide; [| by apply IH].
      intros [= <-].
      by apply CachedFacts.cached_invalid_review_payload_false in Hvalid.
Qed.

Lemma X10_cached_stored_reviews_passed_validation_witness :
  Cached.reviews_accepted cached_reviewed_ride.
Proof.
  apply (X10_cached_stored_reviews_passed_validation cached_reviewed_ride
           cached_reviewed_ride_reachable).
Defined.

(** ** The calls that throw *)



(** X13.  In the version of src/index.ts, [getRideAverageRating] never returns
    an average: for a ride that is in the ride store it throws a [TypeError],
    for any other identifier it fails with ["Ride not found"]; it leaves the
    state as it was. *)
Theorem X13_cached_getRideAverageRating_never_answers rideId (st : Cached.State) :
  Cached.getRideAverageRating rideId st =
    (match Cached.rideStorage st !! rideId with
     | Some _ => Threw (TypeError "isSome")
     | None => Returned (Err RideNotFound)
     end, st)
  ∧ ∀ averageRating,
      (Cached.getRideAverageRating rideId st).1 ≠ Returned (Ok averageRating).
Proof.
  destruct (Cached.rideStorage st !! rideId) as [record |] eqn:E.
  - by rewrite (CachedFacts.cached_getRideAverageRating_Some _ _ _ E).
  - by rewrite (CachedFacts.cached_getRideAverageRating_None _ _ E).
Qed.

(** ** Order and case of strings *)

Lemma string_compare_refl (a : string) : String.compare a a = Eq.
Proof.
  pose proof (String.compare_antisym a a) as H.
  by destruct (String.compare a a).
Qed.

Lemma string_leb_refl (a : string) : string_leb a a = true.
Proof. unfold string_leb, String.leb. by rewrite string_compare_refl. Qed.

Lemma string_ltb_leb (a b : string) : string_ltb a b = negb (string_leb b a).
Proof.
  unfold string_ltb, string_leb, String.ltb, String.leb.
  rewrite (String.compare_antisym a b). by destruct (String.compare b a).
Qed.

Lemma ascii_compare_lt_trans (x y z : ascii) :
  Ascii.compare x y = Lt → Ascii.compare y z = Lt → Ascii.compare x z = Lt.
Proof.
  unfold Ascii.compare. rewrite !N.compare_lt_iff. apply N.lt_trans.
Qed.

Lemma string_leb_trans (a b c : string) :
  string_leb a b = true → string_leb b c = true → string_leb a c = true.
Proof.
  unfold string_leb, String.leb. revert b c.
  induction a as [| x a IH]; intros [| y b] [| z c]; simpl; try done.
  destruct (Ascii.compare x y) eqn:Exy; try done.
  - apply Ascii.compare_eq_iff in Exy as ->.
    destruct (Ascii.compare y z); try done. apply IH.
  - destruct (Ascii.compare y z) eqn:Eyz; try done.
    + apply Ascii.compare_eq_iff in Eyz as <-. by rewrite Exy.
    + by rewrite (ascii_compare_lt_trans _ _ _ Exy Eyz).
Qed.

(** ** Searches and filters *)

(** X14.  [filterRidesByDateRange] succeeds, leaves the state as it was and
    returns exactly the stored rides whose [date] is between the two bounds
    in the order of strings; the bounds are inclusive, and the result is
    empty when the end bound is before the start bound. *)
Theorem X14_plain_date_range startDate endDate (st : Plain.State) :
  ∃ rides,
    Plain.filterRidesByDateRange startDate endDate st = (Ok rides, st)
    ∧ (∀ ride,
         In ride rides ↔
           (∃ k, Plain.rideStorage st !! k = Some ride)
           ∧ string_leb startDate (Plain.RideRecord.date ride) = true
           ∧ string_leb (Plain.RideRecord.date ride) endDate = true)
    ∧ (∀ k ride,
         Plain.rideStorage st !! k = Some ride →
         string_leb startDate endDate = true →
         Plain.RideRecord.date ride = startDate
         ∨ Plain.RideRecord.date ride = endDate →
         In ride rides)
    ∧ (string_ltb endDate startDate = true → rides = []).
Proof.
  eexists. split; [reflexivity |].
  assert (Hin : ∀ ride,
    In ride (List.filter
               (fun ride => string_leb startDate (Plain.RideRecord.date ride)
                            && string_leb (Plain.RideRecord.date ride) endDate)
               (values (Plain.rideStorage st))) ↔
      (∃ k, Plain.rideStorage st !! k = Some ride)
      ∧ string_leb startDate (Plain.RideRecord.date ride) = true
      ∧ string_leb (Plain.RideRecord.date ride) endDate = true).
  { intros ride. by rewrite filter_values_In, andb_true_iff. }
  split; [exact Hin |]. split.
  - intros k ride Hk Hle Hdate. apply Hin. split; [by exists k |].
    destruct Hdate as [-> | ->]; split;
      first [apply string_leb_refl | exact Hle].
  - intros Hlt. apply filter_values_nil. intros k ride _.
    apply andb_false_iff.
    destruct (string_leb startDate (Plain.RideRecord.date ride)) eqn:E1;
      [| by left].
    destruct (string_leb (Plain.RideRecord.date ride) endDate) eqn:E2;
      [| by right].
    rewrite string_ltb_leb, (string_leb_trans _ _ _ E1 E2) in Hlt. discriminate.
Qed.

Lemma X14_plain_date_range_witness :
  ∃ rides,
    Plain.filterRidesByDateRange "2024-01-10" "2024-01-31" plain_one_ride =
      (Ok rides, plain_one_ride)
    ∧ In (Plain.record_of_payload "ride-1" 1%N commute) rides
    ∧ (Plain.filterRidesByDateRange "2024-01-31" "2024-01-10" plain_one_ride).1
        = Ok [].
Proof.
  destruct (X14_plain_date_range "2024-01-10" "2024-01-31" plain_one_ride)
    as (rides & Hrun & _ & Hbound & _).
  destruct (X14_plain_date_range "2024-01-31" "2024-01-10" plain_one_ride)
    as (none & Hrun' & _ & _ & Hempty).
  exists rides. split; [exact Hrun |]. split.
  - apply (Hbound "ride-1"); [reflexivity | reflexivity | by left].
  - rewrite Hrun', Hempty; reflexivity.
Defined.

(** X15.  The two searches by location succeed, leave the state as it was and
    return exactly the stored rides whose location, put in lower case by the
    engine, equals the argument put in lower case; two arguments with the
    same lower case give the same result. *)
Theorem X15_plain_search_ignores_case {host : Host} location (st : Plain.State) :
  (∃ rides,
     Plain.searchRidesByStartLocation location st = (Ok rides, st)
     ∧ (∀ ride,
          In ride rides ↔
            (∃ k, Plain.rideStorage st !! k = Some ride)
            ∧ toLowerCase (Plain.RideRecord.startLocation ride) = toLowerCase location)
     ∧ (∀ location',
          toLowerCase location' = toLowerCase location →
          Plain.searchRidesByStartLocation location' st = (Ok rides, st)))
  ∧ (∃ rides,
       Plain.searchRidesByEndLocation location st = (Ok rides, st)
       ∧ (∀ ride,
            In ride rides ↔
              (∃ k, Plain.rideStorage st !! k = Some ride)
              ∧ toLowerCase (Plain.RideRecord.endLocation ride) = toLowerCase location)
       ∧ (∀ location',
            toLowerCase location' = toLowerCase location →
            Plain.searchRidesByEndLocation location' st = (Ok rides, st))).
Proof.
  split.
  - eexists. split; [reflexivity |]. split.
    + intros ride. by rewrite filter_values_In, String.eqb_eq.
    + intros location' H.
      unfold Plain.searchRidesByStartLocation, bind, Plain.rideStorage_values.
      by rewrite H.
  - eexists. split; [reflexivity |]. split.
    + intros ride. by rewrite filter_values_In, String.eqb_eq.
    + intros location' H.
      unfold Plain.searchRidesByEndLocation, bind, Plain.rideStorage_values.
      by rewrite H.
Qed.

Lemma X15_plain_search_ignores_case_witness :
  Plain.searchRidesByEndLocation (host := ascii_host) "b" plain_one_ride =
    Plain.searchRidesByEndLocation (host := ascii_host) "B" plain_one_ride.
Proof.
  destruct (X15_plain_search_ignores_case (host := ascii_host) "B" plain_one_ride)
    as [_ (rides & Hrun & _ & Hcase)].
  rewrite Hrun. apply Hcase. reflexivity.
Defined.

(** X16.  In both versions, [getRidesByProvider] succeeds, leaves the state
    as it was and returns exactly the stored rides whose [providerId] is the
    argument, compared as it is written: a stored ride is in the result for
    its own provider and in the result for no other. *)
Theorem X16_getRidesByProvider_exact providerId stP stC :
  (∃ rides,
     Plain.getRidesByProvider providerId stP = (Ok rides, stP)
     ∧ (∀ ride,
          In ride rides ↔
            (∃ k, Plain.rideStorage stP !! k = Some ride)
            ∧ Plain.RideRecord.providerId ride = providerId)
     ∧ (∀ other others,
          other ≠ providerId →
          (Plain.getRidesByProvider other stP).1 = Ok others →
          ∀ ride, In ride rides → ¬ In ride others))
  ∧ (∃ rides,
       Cached.getRidesByProvider providerId stC = (Ok rides, stC)
       ∧ (∀ ride,
            In ride rides ↔
              (∃ k, Cached.rideStorage stC !! k = Some ride)
              ∧ Cached.RideRecord.providerId ride = providerId)
       ∧ (∀ other others,
            other ≠ providerId →
            (Cached.getRidesByProvider other stC).1 = Ok others →
            ∀ ride, In ride rides → ¬ In ride others)).
Proof.
  split.
  - eexists. split; [reflexivity |].
    assert (Hin : ∀ p ride,
      In ride (List.filter
                 (fun ride => String.eqb (Plain.RideRecord.providerId ride) p)
                 (values (Plain.rideStorage stP))) ↔
        (∃ k, Plain.rideStorage stP !! k = Some ride)
        ∧ Plain.RideRecord.providerId ride = p).
    { intros p ride. by rewrite filter_values_In, String.eqb_eq. }
    split; [apply Hin |].
    intros other others Hne [= <-] ride Hride Hother.
    apply Hin in Hride as [_ Hp]. apply Hin in Hother as [_ Hp']. congruence.
  - eexists. split; [reflexivity |].
    assert (Hin : ∀ p ride,
      In ride (List.filter
                 (fun ride => String.eqb (Cached.RideRecord.providerId ride) p)
                 (values (Cached.rideStorage stC))) ↔
        (∃ k, Cached.rideStorage stC !! k = Some ride)
        ∧ Cached.RideRecord.providerId ride = p).
    { intros p ride. by rewrite filter_values_In, String.eqb_eq. }
    split; [apply Hin |].
    intros other others Hne [= <-] ride Hride Hother.
    apply Hin in Hride as [_ Hp]. apply Hin in Hother as [_ Hp']. congruence.
Qed.

Lemma X16_getRidesByProvider_exact_witness :
  ∃ rides,
    Cached.getRidesByProvider "p1" cached_one_ride = (Ok rides, cached_one_ride)
    ∧ In (Cached.record_of_payload "ride-1" 1%N commute) rides
    ∧ ∀ others,
        (Cached.getRidesByProvider "P1" cached_one_ride).1 = Ok others →
        ¬ In (Cached.record_of_payload "ride-1" 1%N commute) others.
Proof.
  destruct (X16_getRidesByProvider_exact "p1" plain_one_ride cached_one_ride)
    as [_ (rides & Hrun & Hin & Hother)].
  assert (Hride : In (Cached.record_of_payload "ride-1" 1%N commute) rides).
  { apply Hin. split; [by exists "ride-1" | reflexivity]. }
  exists rides. split; [exact Hrun |]. split; [exact Hride |].
  intros others Hothers. apply (Hother "P1" others); [discriminate | done | done].
Defined.

(** ** The combined filter *)

Lemma location_criterion {host : Host} (criterion : option string)
    (location : string) :
  Cached.truthy_string criterion
  && negb (String.eqb (toLowerCase location) (toLowerCase (default "" criterion)))
  = false ↔
  ∀ wanted, criterion = Some wanted → wanted ≠ "" →
            toLowerCase location = toLowerCase wanted.
Proof.
  destruct criterion as [wanted |]; simpl.
  - destruct (falsy_string wanted) eqn:E; simpl.
    + apply falsy_string_true in E. split; [| done]. by intros _ ? [= <-].
    + apply falsy_string_false in E. rewrite negb_false_iff, String.eqb_eq.
      split; [by intros H ? [= <-] | by intros H; apply H].
  - split; [| done]. by intros _ ? [=].
Qed.

Lemma date_criterion (startDate endDate : option string) (date : string) :
  Cached.truthy_string startDate && Cached.truthy_string endDate
  && (string_ltb date (default "" startDate)
      || string_ltb (default "" endDate) date)
  = false ↔
  ∀ s e, startDate = Some s → endDate = Some e → s ≠ "" → e ≠ "" →
         string_leb s date = true ∧ string_leb date e = true.
Proof.
  rewrite !string_ltb_leb.
  destruct startDate as [s |], endDate as [e |]; simpl;
    try (split; [by intros _ ? ? [=] | done]);
    try (split; [by intros _ ? ? _ [=] | done]).
  - destruct (falsy_string s) eqn:Es; simpl.
    { apply falsy_string_true in Es. split; [| done]. by intros _ ? ? [= <-] _. }
    destruct (falsy_string e) eqn:Ee; simpl.
    { apply falsy_string_true in Ee. split; [| done]. by intros _ ? ? _ [= <-]. }
    apply falsy_string_false in Es, Ee.
    rewrite orb_false_iff, !negb_false_iff.
    split; [by intros H ? ? [= <-] [= <-] | by intros H; apply H].
  - rewrite andb_false_r. simpl. split; [by intros _ ? ? _ [=] | done].
Qed.

Lemma seats_criterion (minAvailableSeats : option float) (availableSeats : float) :
  Cached.truthy_number minAvailableSeats
  && number_ltb availableSeats (default 0%float minAvailableSeats)
  = false ↔
  ∀ m, minAvailableSeats = Some m → ¬ zero_or_nan m →
       number_ltb availableSeats m = false.
Proof.
  destruct minAvailableSeats as [m |]; simpl.
  - destruct (falsy_number m) eqn:E; simpl.
    + apply falsy_number_true in E. split; [| done]. by intros _ ? [= <-].
    + apply falsy_number_false in E.
      split; [by intros H ? [= <-] | by intros H; apply H].
  - split; [| done]. by intros _ ? [=].
Qed.

Lemma filterRides_match_conditions {host : Host} filterCriteria ride :
  Cached.filterRides_match filterCriteria ride = true ↔
    (Cached.truthy_string (Cached.FilterCriteria.startLocation filterCriteria)
     && negb (String.eqb
                (toLowerCase (Cached.RideRecord.startLocation ride))
                (toLowerCase
                   (default "" (Cached.FilterCriteria.startLocation filterCriteria))))
     = false)
    ∧ (Cached.truthy_string (Cached.FilterCriteria.endLocation filterCriteria)
       && negb (String.eqb
                  (toLowerCase (Cached.RideRecord.endLocation ride))
                  (toLowerCase
                     (default "" (Cached.FilterCriteria.endLocation filterCriteria))))
       = false)
    ∧ (Cached.truthy_string (Cached.FilterCriteria.startDate filterCriteria)
       && Cached.truthy_string (Cached.FilterCriteria.endDate filterCriteria)
       && (string_ltb (Cached.RideRecord.date ride)
                      (default "" (Cached.FilterCriteria.startDate filterCriteria))
           || string_ltb (default "" (Cached.FilterCriteria.endDate filterCriteria))
                         (Cached.RideRecord.date ride))
       = false)
    ∧ (Cached.truthy_number (Cached.FilterCriteria.minAvailableSeats filterCriteria)
       && number_ltb (Cached.RideRecord.availableSeats ride)
                     (default 0%float
                        (Cached.FilterCriteria.minAvailableSeats filterCriteria))
       = false).
Proof.
  unfold Cached.filterRides_match. cbv zeta.
  repeat match goal with
         | |- context [if ?c then false else _] => destruct c
         end; intuition congruence.
Qed.

(** X17.  The combined [filterRides] succeeds, leaves the state as it was and
    returns exactly the stored rides that pass every criterion that takes
    part: a start or end location that is present and not empty must equal
    the ride's, both put in lower case by the engine; when both dates are
    present and not empty the ride's date must lie between them, bounds
    included; when a minimum of seats is present and neither zero nor NaN, the
    ride's seats must not be below it.  Any other criterion is ignored. *)
Theorem X17_cached_filterRides_conjunction {host : Host} filterCriteria
    (st : Cached.State) :
  ∃ rides,
    Cached.filterRides filterCriteria st = (Ok rides, st)
    ∧ ∀ ride,
        In ride rides ↔
          (∃ k, Cached.rideStorage st !! k = Some ride)
          ∧ (∀ wanted,
               Cached.FilterCriteria.startLocation filterCriteria = Some wanted →
               wanted ≠ "" →
               toLowerCase (Cached.RideRecord.startLocation ride) = toLowerCase wanted)
          ∧ (∀ wanted,
               Cached.FilterCriteria.endLocation filterCriteria = Some wanted →
               wanted ≠ "" →
               toLowerCase (Cached.RideRecord.endLocation ride) = toLowerCase wanted)
          ∧ (∀ s e,
               Cached.FilterCriteria.startDate filterCriteria = Some s →
               Cached.FilterCriteria.endDate filterCriteria = Some e →
               s ≠ "" → e ≠ "" →
               string_leb s (Cached.RideRecord.date ride) = true
               ∧ string_leb (Cached.RideRecord.date ride) e = true)
          ∧ (∀ m,
               Cached.FilterCriteria.minAvailableSeats filterCriteria = Some m →
               ¬ zero_or_nan m →
               number_ltb (Cached.RideRecord.availableSeats ride) m = false).
Proof.
  eexists. split; [reflexivity |]. intros ride.
  rewrite filter_values_In, filterRides_match_conditions.
  by rewrite !location_criterion, date_criterion, seats_criterion.
Qed.

Lemma X17_cached_filterRides_conjunction_witness :
  ∃ rides,
    Cached.filterRides (host := ascii_host)
      (Cached.FilterCriteria.Build (Some "a") None (Some "2024-01-01") None
                                   (Some 3%float))
      cached_one_ride = (Ok rides, cached_one_ride)
    ∧ In (Cached.record_of_payload "ride-1" 1%N commute) rides.
Proof.
  destruct (X17_cached_filterRides_conjunction (host := ascii_host)
              (Cached.FilterCriteria.Build (Some "a") None (Some "2024-01-01") None
                                           (Some 3%float))
              cached_one_ride) as (rides & Hrun & Hin).
  exists rides. split; [exact Hrun |]. apply Hin. split; [by exists "ride-1" |].
  split; [| split; [| split]]; simpl.
  - by intros ? [= <-] _.
  - by intros ? [=].
  - by intros ? ? _ [=].
  - by intros ? [= <-] _.
Defined.

(** X18.  When no criterion takes part -- the locations are absent or empty,
    one of the dates is absent or empty, the minimum of seats is absent, zero
    or NaN -- [filterRides] returns what [getAllRides] returns: a date range
    with one bound only and a minimum of zero seats filter nothing. *)
Theorem X18_cached_filterRides_inactive {host : Host} filterCriteria
    (st : Cached.State) :
  Cached.inactive filterCriteria →
  Cached.filterRides filterCriteria st = Cached.getAllRides st.
Proof.
  intros (Hstart & Hend & Hdate & Hseats).
  unfold Cached.filterRides, Cached.getAllRides, bind, Cached.rideStorage_values, ret.
  do 2 f_equal.
  assert (Hall : ∀ ride, Cached.filterRides_match filterCriteria ride = true).
  { intros ride. apply filterRides_match_conditions.
    rewrite Hstart, Hend, Hseats. simpl.
    by destruct Hdate as [-> | ->]; rewrite ?andb_false_r. }
  induction (values (Cached.rideStorage st)) as [| ride rides IH]; simpl; [done |].
  by rewrite Hall, IH.
Qed.

Lemma X18_cached_filterRides_inactive_witness :
  Cached.filterRides (host := ascii_host)
    (Cached.FilterCriteria.Build (Some "") None (Some "2024-02-01") None
                                 (Some 0%float))
    cached_one_ride
  = Cached.getAllRides cached_one_ride.
Proof.
  apply (X18_cached_filterRides_inactive (host := ascii_host)
           (Cached.FilterCriteria.Build (Some "") None (Some "2024-02-01") None
                                        (Some 0%float))
           cached_one_ride).
  unfold Cached.inactive. simpl. split; [reflexivity |]. split; [reflexivity |].
  split; [by right | reflexivity].
Defined.

(** ** The recomputed average *)

(** The ratings are added in the order of the identifiers of the reviews, in
    binary64: 2^53 + 1 + 1 is 2^53, and 1 + 1 + 2^53 is 2^53 + 2. *)
Example plain_average_rounds_in_key_order :
  (Plain.getRideAverageRating "ride-1"
     (Plain.addRideReviews calls_large_first plain_one_ride).2).1 =
    Ok (9007199254740992 / 3)%float
  ∧ (Plain.getRideAverageRating "ride-1"
       (Plain.addRideReviews calls_large_last plain_one_ride).2).1 =
      Ok (9007199254740994 / 3)%float.
Proof. split; by vm_compute. Qed.

(** X19.  In the version that recomputes, for a ride that has a stored
    review, [getRideAverageRating] succeeds and leaves the state as it was:
    it returns the quotient, in binary64, of the sum of the ratings of the
    reviews that [getRideReviews] lists for the ride, added from zero in the
    order of that list, by the number of these reviews. *)
Theorem X19_plain_average_of_listed_reviews rideId k review (st : Plain.State) :
  Plain.rideReviewStorage st !! k = Some review →
  RideReviewRecord.rideId review = rideId →
  ∃ reviews,
    Plain.getRideReviews rideId st = (Ok reviews, st)
    ∧ In review reviews
    ∧ Plain.getRideAverageRating rideId st =
        (Ok (PrimFloat.div
               (fold_left
                  (fun sum listed => PrimFloat.add sum (RideReviewRecord.rating listed))
                  reviews 0%float)
               (number_of_nat (length reviews))),
         st).
Proof.
  intros Hk Hride.
  exists (List.filter (review_of_ride rideId) (values (Plain.rideReviewStorage st))).
  assert (Hin : In review
                  (List.filter (review_of_ride rideId)
                     (values (Plain.rideReviewStorage st)))).
  { apply filter_values_In. split; [by exists k | by apply review_of_ride_true]. }
  split; [apply PlainFacts.plain_getRideReviews_run |]. split; [exact Hin |].
  unfold Plain.getRideAverageRating, bind, Plain.rideReviewStorage_values, reduce.
  cbv zeta.
  destruct (List.filter (review_of_ride rideId) (values (Plain.rideReviewStorage st)))
    as [| first rest]; [destruct Hin | reflexivity].
Qed.

Lemma X19_plain_average_of_listed_reviews_witness :
  ∃ reviews,
    Plain.getRideReviews "ride-1" plain_reviewed_ride = (Ok reviews, plain_reviewed_ride)
    ∧ In (review_of_payload "review-a" 2%N (review_rated 5%float)) reviews
    ∧ Plain.getRideAverageRating "ride-1" plain_reviewed_ride =
        (Ok (PrimFloat.div
               (fold_left
                  (fun sum listed => PrimFloat.add sum (RideReviewRecord.rating listed))
                  reviews 0%float)
               (number_of_nat (length reviews))),
         plain_reviewed_ride).
Proof.
  apply (X19_plain_average_of_listed_reviews "ride-1" "review-a"
           (review_of_payload "review-a" 2%N (review_rated 5%float))
           plain_reviewed_ride).
  - reflexivity.
  - reflexivity.
Defined.

Lemma plain_addRideReviews_cons call calls st :
  Plain.addRideReviews (call :: calls) st =
    Plain.addRideReviews calls (Plain.addRideReview call.1.1 call.1.2 call.2 st).2.
Proof. by destruct call as [[uuid time] payload]. Qed.

Lemma plain_addRideReviews_Permutation calls calls' :
  calls ≡ₚ calls' →
  NoDup (map (fun call => call.1.1) calls) →
  ∀ st, (Plain.addRideReviews calls st).2 = (Plain.addRideReviews calls' st).2.
Proof.
  induction 1 as [| call l l' Hperm IH | x y l | l l' l'' H1 IH1 H2 IH2];
    intros Hnodup st.
  - reflexivity.
  - rewrite !plain_addRideReviews_cons. apply IH. by inversion Hnodup.
  - rewrite !plain_addRideReviews_cons, !PlainFacts.plain_addRideReview_run.
    simpl. rewrite insert_insert_ne; [reflexivity |].
    apply NoDup_cons in Hnodup as [Hnotin _].
    intros Heq. apply Hnotin. simpl. rewrite Heq. by left.
  - rewrite IH1 by done. apply IH2.
    by apply (NoDup_Permutation_proper _ _ (Permutation_map _ H1)).
Qed.

Lemma calls_5_3_4_distinct : NoDup (map (fun call => call.1.1) calls_5_3_4).
Proof. apply (bool_decide_unpack _). by vm_compute. Qed.

Lemma calls_4_5_3_arrival : calls_5_3_4 ≡ₚ calls_4_5_3.
Proof.
  symmetry.
  apply (Permutation_cons_append
           [ ("review-a", 2%N, review_rated 5%float);
             ("review-b", 3%N, review_rated 3%float) ]
           ("review-c", 4%N, review_rated 4%float)).
Qed.

(** X20.  In the version that recomputes, the order in which reviews arrive
    does not matter: two sequences of [addRideReview] calls that hold the
    same calls (identifier, time and payload) in different orders, with
    distinct identifiers, leave the same stores, so that [getRideReviews] and
    [getRideAverageRating] answer the same for every ride. *)
Theorem X20_plain_review_submissions_commute rideId calls calls' (st : Plain.State) :
  NoDup (map (fun call => call.1.1) calls) →
  calls ≡ₚ calls' →
  (Plain.addRideReviews calls st).2 = (Plain.addRideReviews calls' st).2
  ∧ (Plain.getRideReviews rideId (Plain.addRideReviews calls st).2).1 =
      (Plain.getRideReviews rideId (Plain.addRideReviews calls' st).2).1
  ∧ (Plain.getRideAverageRating rideId (Plain.addRideReviews calls st).2).1 =
      (Plain.getRideAverageRating rideId (Plain.addRideReviews calls' st).2).1.
Proof.
  intros Hnodup Hperm.
  pose proof (plain_addRideReviews_Permutation calls calls' Hperm Hnodup st) as Hst.
  split; [exact Hst |]. by rewrite Hst.
Qed.

Lemma X20_plain_review_submissions_commute_witness :
  (Plain.getRideAverageRating "ride-1"
     (Plain.addRideReviews calls_5_3_4 plain_one_ride).2).1 =
    (Plain.getRideAverageRating "ride-1"
       (Plain.addRideReviews calls_4_5_3 plain_one_ride).2).1.
Proof.
  apply (X20_plain_review_submissions_commute "ride-1" calls_5_3_4 calls_4_5_3
           plain_one_ride calls_5_3_4_distinct calls_4_5_3_arrival).
Defined.

(** ** The two versions side by side *)

Lemma erase_merge_patch record payload time :
  Cached.erase (Cached.merge_patch record (Cached.RidePatch.of_payload payload) time) =
    Plain.merge_payload (Cached.erase record) payload time.
Proof. by destruct record, payload. Qed.

Lemma erase_payload_of_record record :
  Plain.payload_of_record (Cached.erase record) = Cached.payload_of_record record.
Proof. by destruct record. Qed.

Lemma erase_updateRide id time payload st :
  (Cached.erase_result
     (Cached.updateRide id time (Cached.RidePatch.of_payload payload) st).1,
   Cached.erase_state
     (Cached.updateRide id time (Cached.RidePatch.of_payload payload) st).2) =
  Plain.updateRide id time payload (Cached.erase_state st).
Proof.
  destruct (Cached.rideStorage st !! id) as [record |] eqn:E.
  - rewrite (CachedFacts.cached_updateRide_Some _ _ _ _ _ E).
    erewrite PlainFacts.plain_updateRide_Some
      by (simpl; rewrite lookup_fmap, E; reflexivity).
    unfold Cached.erase_state. simpl.
    by rewrite fmap_insert, erase_merge_patch.
  - rewrite (CachedFacts.cached_updateRide_None _ _ _ _ E).
    rewrite PlainFacts.plain_updateRide_None; [done |].
    simpl. by rewrite lookup_fmap, E.
Qed.

(** X21.  With [averageRating] dropped from its records, the version of
    src/index.ts does what the other version does on the calls that check no
    payload:
    [updateRide], the six field-scoped updates, [deleteRide] and [getRide]
    return the same result and leave the same stores, for every argument and
    every state. *)
Theorem X21_cached_simulates_plain_updates id time payload u (st : Cached.State) :
  (Cached.erase_result
     (Cached.updateRide id time (Cached.RidePatch.of_payload payload) st).1,
   Cached.erase_state
     (Cached.updateRide id time (Cached.RidePatch.of_payload payload) st).2) =
    Plain.updateRide id time payload (Cached.erase_state st)
  ∧ (Cached.erase_result (Cached.updateRideField u id time st).1,
     Cached.erase_state (Cached.updateRideField u id time st).2) =
      Plain.updateRideField u id time (Cached.erase_state st)
  ∧ (Cached.erase_result (Cached.deleteRide id st).1,
     Cached.erase_state (Cached.deleteRide id st).2) =
      Plain.deleteRide id (Cached.erase_state st)
  ∧ (Cached.erase_result (Cached.getRide id st).1,
     Cached.erase_state (Cached.getRide id st).2) =
      Plain.getRide id (Cached.erase_state st).
Proof.
  split; [| split; [| split]].
  - apply erase_updateRide.
  - destruct (Cached.rideStorage st !! id) as [record |] eqn:E.
    + rewrite (CachedFacts.cached_updateRideField_Some _ _ _ _ _ E).
      erewrite PlainFacts.plain_updateRideField_Some
        by (simpl; rewrite lookup_fmap, E; reflexivity).
      rewrite erase_payload_of_record. apply erase_updateRide.
    + rewrite (CachedFacts.cached_updateRideField_None _ _ _ _ E).
      rewrite PlainFacts.plain_updateRideField_None; [done |].
      simpl. by rewrite lookup_fmap, E.
  - destruct (Cached.rideStorage st !! id) as [record |] eqn:E.
    + rewrite (CachedFacts.cached_deleteRide_Some _ _ _ E).
      erewrite PlainFacts.plain_deleteRide_Some
        by (simpl; rewrite lookup_fmap, E; reflexivity).
      unfold Cached.erase_state. simpl. by rewrite fmap_delete.
    + rewrite (CachedFacts.cached_deleteRide_None _ _ E).
      rewrite PlainFacts.plain_deleteRide_None
        by (simpl; by rewrite lookup_fmap, E).
      unfold Cached.erase_state. simpl. by rewrite fmap_delete.
  - destruct (Cached.rideStorage st !! id) as [record |] eqn:E.
    + rewrite (CachedFacts.cached_getRide_Some _ _ _ E).
      erewrite PlainFacts.plain_getRide_Some
        by (simpl; rewrite lookup_fmap, E; reflexivity).
      reflexivity.
    + rewrite (CachedFacts.cached_getRide_None _ _ E).
      rewrite PlainFacts.plain_getRide_None; [done |].
      simpl. by rewrite lookup_fmap, E.
Qed.

(** X22.  With [averageRating] dropped from its records, the validating
    version does what the other version does on the additions it completes:
    [addRide] on a payload with no empty field and seats neither zero nor NaN,
    and [addRideReview] on a valid payload whose [rideId] is not in the ride
    store, return the same result and leave the same stores. *)
Theorem X22_cached_simulates_plain_additions uuid time payload review
    (st : Cached.State) :
  ¬ missing_field payload →
  valid_review_payload review →
  Cached.rideStorage st !! RideReviewPayload.rideId review = None →
  (Cached.erase_result (Cached.addRide uuid time payload st).1,
   Cached.erase_state (Cached.addRide uuid time payload st).2) =
    Plain.addRide uuid time payload (Cached.erase_state st)
  ∧ ((Cached.addRideReview uuid time review st).1,
     Cached.erase_state (Cached.addRideReview uuid time review st).2) =
      (Returned (Plain.addRideReview uuid time review (Cached.erase_state st)).1,
       (Plain.addRideReview uuid time review (Cached.erase_state st)).2).
Proof.
  intros Hpayload Hreview Hnone.
  apply CachedFacts.cached_invalid_ride_payload_false in Hpayload.
  apply CachedFacts.cached_valid_review_payload_accepted in Hreview.
  split.
  - rewrite (CachedFacts.cached_addRide_valid _ _ _ _ Hpayload),
      PlainFacts.plain_addRide_run.
    unfold Cached.erase_state. simpl. by rewrite fmap_insert.
  - by rewrite (CachedFacts.cached_addRideReview_no_ride _ _ _ _ Hreview Hnone),
      PlainFacts.plain_addRideReview_run.
Qed.

Lemma X22_cached_simulates_plain_additions_witness :
  Cached.erase_state
    (Cached.addRideReview "review-b" 3%N (review_rated 3%float) cached_only_review).2 =
  (Plain.addRideReview "review-b" 3%N (review_rated 3%float)
     (Cached.erase_state cached_only_review)).2.
Proof.
  destruct (X22_cached_simulates_plain_additions "review-b" 3%N commute
              (review_rated 3%float) cached_only_review) as [_ H].
  - exact commute_complete.
  - exact review_rated_3_valid.
  - reflexivity.
  - exact (f_equal snd H).
Defined.

(** ** Deleting a ride that has reviews *)

(** X23.  After [deleteRide] of a stored ride, the version that recomputes
    answers [getRideAverageRating] for that ride as before the deletion, and
    the version of src/index.ts fails with ["Ride not found"] whatever reviews
    the ride has. *)
Theorem X23_average_after_deleteRide id recordP recordC stP stC :
  Plain.rideStorage stP !! id = Some recordP →
  Cached.rideStorage stC !! id = Some recordC →
  (Plain.getRideAverageRating id (Plain.deleteRide id stP).2).1 =
    (Plain.getRideAverageRating id stP).1
  ∧ (Cached.getRideAverageRating id (Cached.deleteRide id stC).2).1 =
      Returned (Err RideNotFound).
Proof.
  intros HP HC. split.
  - rewrite (PlainFacts.plain_deleteRide_Some _ _ _ HP).
    unfold Plain.getRideAverageRating, bind, Plain.rideReviewStorage_values.
    cbn [fst snd Plain.rideReviewStorage].
    by destruct (length _ =? 0)%nat.
  - rewrite (CachedFacts.cached_deleteRide_Some _ _ _ HC).
    rewrite CachedFacts.cached_getRideAverageRating_None; [done |].
    simpl. apply lookup_delete_eq.
Qed.

Lemma X23_average_after_deleteRide_witness :
  (Plain.getRideAverageRating "ride-1"
     (Plain.deleteRide "ride-1" plain_reviewed_ride).2).1 = Ok 5%float
  ∧ (Cached.getRideAverageRating "ride-1"
       (Cached.deleteRide "ride-1" cached_reviewed_ride).2).1 =
      Returned (Err RideNotFound).
Proof.
  destruct (X23_average_after_deleteRide "ride-1"
              (Plain.record_of_payload "ride-1" 1%N commute)
              (Cached.record_of_payload "ride-1" 1%N commute)
              plain_reviewed_ride cached_reviewed_ride) as [HP HC].
  - reflexivity.
  - reflexivity.
  - split; [rewrite HP; reflexivity | exact HC].
Defined.

(** ** Distinct identifiers in the listings *)

Lemma values_ids_NoDup {V : Type} (id : V → string) (m : gmap string V) :
  (∀ k v, m !! k = Some v → id v = k) → NoDup (map id (values m)).
Proof.
  intros Hkeyed. rewrite values_Permutation.
  assert (Heq : map id (map_to_list m).*2 = (map_to_list m).*1).
  { assert (Hall : ∀ kv, kv ∈ map_to_list m → id kv.2 = kv.1).
    { intros [k v] Hin. apply elem_of_map_to_list in Hin. by apply Hkeyed. }
    induction (map_to_list m) as [| kv l IH]; simpl; [done |].
    rewrite (Hall kv) by (by left). f_equal. apply IH.
    intros kv' Hin. apply Hall. by right. }
  rewrite Heq. apply NoDup_fst_map_to_list.
Qed.

(** X24.  In every reachable state of both versions, [getAllRides] lists no
    two rides with the same [id]. *)
Theorem X24_getAllRides_distinct_ids stP stC :
  Plain.reachable stP → Cached.reachable stC →
  (∃ rides, Plain.getAllRides stP = (Ok rides, stP)
            ∧ NoDup (map Plain.RideRecord.id rides))
  ∧ (∃ rides, Cached.getAllRides stC = (Ok rides, stC)
              ∧ NoDup (map Cached.RideRecord.id rides)).
Proof.
  intros HP HC. split.
  - eexists. split; [reflexivity |]. apply values_ids_NoDup.
    by apply PlainFacts.plain_keyed_reachable.
  - eexists. split; [reflexivity |]. apply values_ids_NoDup.
    by apply CachedFacts.cached_inv_reachable.
Qed.

Lemma plain_two_rides_reachable : Plain.reachable plain_two_rides.
Proof.
  eapply rtc_l; [apply (Plain.step_addRide Plain.init "ride-1" 1%N commute) |].
  apply rtc_once. apply Plain.step_addRide.
Qed.

Lemma cached_two_rides_reachable : Cached.reachable cached_two_rides.
Proof.
  eapply rtc_l; [apply (Cached.step_addRide Cached.init "ride-1" 1%N commute) |].
  apply rtc_once. apply Cached.step_addRide.
Qed.

Lemma cached_two_rides_length :
  length (values (Cached.rideStorage cached_two_rides)) = 2.
Proof. by vm_compute. Qed.

Lemma cached_getAllRides_run (st : Cached.State) :
  Cached.getAllRides st = (Ok (values (Cached.rideStorage st)), st).
Proof. reflexivity. Qed.

Lemma X24_getAllRides_distinct_ids_witness :
  ∃ rides,
    Cached.getAllRides cached_two_rides = (Ok rides, cached_two_rides)
    ∧ length rides = 2
    ∧ NoDup (map Cached.RideRecord.id rides).
Proof.
  destruct (X24_getAllRides_distinct_ids plain_two_rides cached_two_rides
              plain_two_rides_reachable cached_two_rides_reachable)
    as [_ (rides & Hrun & Hnodup)].
  exists rides. split; [exact Hrun |]. split; [| exact Hnodup].
  rewrite cached_getAllRides_run in Hrun.
  assert (Heq : values (Cached.rideStorage cached_two_rides) = rides)
    by congruence.
  rewrite <- Heq. exact cached_two_rides_length.
Defined.
